(** * Fuel-station record extraction (helpers.py): a shallow embedding

    The development follows [helpers.py]:
    - [Py]: the fragment of Python and pandas the helpers rely on
      (texts as sequences of code points, cell values, truthiness,
      [str.lower], [str.strip], [in], [pd.isna], exceptions);
    - [_get_column_value], [_normalize_boolean], [_normalize_status]:
      the three private helpers, clause by clause;
    - [loop_body], [for_rows], [try_block]: the row scan of
      [read_fuel_station_records] with its [break], [continue] and the
      blanket [except Exception];
    - [read_fuel_station_records]: the whole function, from the path
      construction on. *)

From Stdlib Require Import ZArith NArith Ascii String Bool.
From stdpp Require Import gmap strings list pretty.

Open Scope string_scope.
Open Scope list_scope.

(** ** The Python fragment *)

Module Py.

(** A Python [str]: its code points. Column names and file names, which
    are only compared for equality, stay Rocq strings (their UTF-8
    bytes). *)
Abbreviation text := (list N).

(** The code points of a literal, from its UTF-8 bytes. A byte that
    starts no well-formed sequence is taken as it is. *)
Definition continuation (b : ascii) : option N :=
  let n := N_of_ascii b in
  if ((0x80 <=? n) && (n <? 0xC0))%N then Some (n - 0x80)%N else None.

Fixpoint decode (s : string) : text :=
  match s with
  | EmptyString => []
  | String b1 r1 =>
      let n1 := N_of_ascii b1 in
      let one := n1 :: decode r1 in
      if (n1 <? 0xC0)%N then one
      else
        match r1 with
        | String b2 r2 =>
            match continuation b2 with
            | Some n2 =>
                if (n1 <? 0xE0)%N
                then ((n1 - 0xC0) * 0x40 + n2)%N :: decode r2
                else
                  match r2 with
                  | String b3 r3 =>
                      match continuation b3 with
                      | Some n3 =>
                          if (n1 <? 0xF0)%N
                          then ((n1 - 0xE0) * 0x1000 + n2 * 0x40 + n3)%N
                               :: decode r3
                          else
                            match r3 with
                            | String b4 r4 =>
                                match continuation b4 with
                                | Some n4 =>
                                    ((n1 - 0xF0) * 0x40000 + n2 * 0x1000
                                     + n3 * 0x40 + n4)%N :: decode r4
                                | None => one
                                end
                            | EmptyString => one
                            end
                      | None => one
                      end
                  | EmptyString => one
                  end
            | None => one
            end
        | EmptyString => one
        end
  end.

Definition u (s : string) : text := decode s.

(** [a == b] on texts. *)
Fixpoint text_eqb (a b : text) : bool :=
  match a, b with
  | [], [] => true
  | x :: a', y :: b' => (x =? y)%N && text_eqb a' b'
  | _, _ => false
  end.

(** *** The Unicode data of [str.lower] and [str.strip]

    The tables are those of CPython 3.11 (Unicode 14.0). *)

(** The simple lower-case mappings, in runs [(first, last, step, image of
    first)]: a code point [c] of a run, [first <= c <= last] with
    [c - first] a multiple of [step], maps to [image + (c - first)]. *)
Definition lower_table : list (N * N * N * N) :=
  [(0x41, 0x5a, 1, 0x61); (0xc0, 0xd6, 1, 0xe0); (0xd8, 0xde, 1, 0xf8);
   (0x100, 0x12e, 2, 0x101); (0x132, 0x136, 2, 0x133); (0x139, 0x147, 2, 0x13a);
   (0x14a, 0x176, 2, 0x14b); (0x178, 0x178, 1, 0xff); (0x179, 0x17d, 2, 0x17a);
   (0x181, 0x181, 1, 0x253); (0x182, 0x184, 2, 0x183); (0x186, 0x186, 1, 0x254);
   (0x187, 0x187, 1, 0x188); (0x189, 0x18a, 1, 0x256); (0x18b, 0x18b, 1, 0x18c);
   (0x18e, 0x18e, 1, 0x1dd); (0x18f, 0x18f, 1, 0x259); (0x190, 0x190, 1, 0x25b);
   (0x191, 0x191, 1, 0x192); (0x193, 0x193, 1, 0x260); (0x194, 0x194, 1, 0x263);
   (0x196, 0x196, 1, 0x269); (0x197, 0x197, 1, 0x268); (0x198, 0x198, 1, 0x199);
   (0x19c, 0x19c, 1, 0x26f); (0x19d, 0x19d, 1, 0x272); (0x19f, 0x19f, 1, 0x275);
   (0x1a0, 0x1a4, 2, 0x1a1); (0x1a6, 0x1a6, 1, 0x280); (0x1a7, 0x1a7, 1, 0x1a8);
   (0x1a9, 0x1a9, 1, 0x283); (0x1ac, 0x1ac, 1, 0x1ad); (0x1ae, 0x1ae, 1, 0x288);
   (0x1af, 0x1af, 1, 0x1b0); (0x1b1, 0x1b2, 1, 0x28a); (0x1b3, 0x1b5, 2, 0x1b4);
   (0x1b7, 0x1b7, 1, 0x292); (0x1b8, 0x1b8, 1, 0x1b9); (0x1bc, 0x1bc, 1, 0x1bd);
   (0x1c4, 0x1c4, 1, 0x1c6); (0x1c5, 0x1c5, 1, 0x1c6); (0x1c7, 0x1c7, 1, 0x1c9);
   (0x1c8, 0x1c8, 1, 0x1c9); (0x1ca, 0x1ca, 1, 0x1cc); (0x1cb, 0x1db, 2, 0x1cc);
   (0x1de, 0x1ee, 2, 0x1df); (0x1f1, 0x1f1, 1, 0x1f3); (0x1f2, 0x1f4, 2, 0x1f3);
   (0x1f6, 0x1f6, 1, 0x195); (0x1f7, 0x1f7, 1, 0x1bf); (0x1f8, 0x21e, 2, 0x1f9);
   (0x220, 0x220, 1, 0x19e); (0x222, 0x232, 2, 0x223); (0x23a, 0x23a, 1, 0x2c65);
   (0x23b, 0x23b, 1, 0x23c); (0x23d, 0x23d, 1, 0x19a); (0x23e, 0x23e, 1, 0x2c66);
   (0x241, 0x241, 1, 0x242); (0x243, 0x243, 1, 0x180); (0x244, 0x244, 1, 0x289);
   (0x245, 0x245, 1, 0x28c); (0x246, 0x24e, 2, 0x247); (0x370, 0x372, 2, 0x371);
   (0x376, 0x376, 1, 0x377); (0x37f, 0x37f, 1, 0x3f3); (0x386, 0x386, 1, 0x3ac);
   (0x388, 0x38a, 1, 0x3ad); (0x38c, 0x38c, 1, 0x3cc); (0x38e, 0x38f, 1, 0x3cd);
   (0x391, 0x3a1, 1, 0x3b1); (0x3a3, 0x3ab, 1, 0x3c3); (0x3cf, 0x3cf, 1, 0x3d7);
   (0x3d8, 0x3ee, 2, 0x3d9); (0x3f4, 0x3f4, 1, 0x3b8); (0x3f7, 0x3f7, 1, 0x3f8);
   (0x3f9, 0x3f9, 1, 0x3f2); (0x3fa, 0x3fa, 1, 0x3fb); (0x3fd, 0x3ff, 1, 0x37b);
   (0x400, 0x40f, 1, 0x450); (0x410, 0x42f, 1, 0x430); (0x460, 0x480, 2, 0x461);
   (0x48a, 0x4be, 2, 0x48b); (0x4c0, 0x4c0, 1, 0x4cf); (0x4c1, 0x4cd, 2, 0x4c2);
   (0x4d0, 0x52e, 2, 0x4d1); (0x531, 0x556, 1, 0x561); (0x10a0, 0x10c5, 1, 0x2d00);
   (0x10c7, 0x10c7, 1, 0x2d27); (0x10cd, 0x10cd, 1, 0x2d2d); (0x13a0, 0x13ef, 1, 0xab70);
   (0x13f0, 0x13f5, 1, 0x13f8); (0x1c90, 0x1cba, 1, 0x10d0); (0x1cbd, 0x1cbf, 1, 0x10fd);
   (0x1e00, 0x1e94, 2, 0x1e01); (0x1e9e, 0x1e9e, 1, 0xdf); (0x1ea0, 0x1efe, 2, 0x1ea1);
   (0x1f08, 0x1f0f, 1, 0x1f00); (0x1f18, 0x1f1d, 1, 0x1f10); (0x1f28, 0x1f2f, 1, 0x1f20);
   (0x1f38, 0x1f3f, 1, 0x1f30); (0x1f48, 0x1f4d, 1, 0x1f40); (0x1f59, 0x1f5f, 2, 0x1f51);
   (0x1f68, 0x1f6f, 1, 0x1f60); (0x1f88, 0x1f8f, 1, 0x1f80); (0x1f98, 0x1f9f, 1, 0x1f90);
   (0x1fa8, 0x1faf, 1, 0x1fa0); (0x1fb8, 0x1fb9, 1, 0x1fb0); (0x1fba, 0x1fbb, 1, 0x1f70);
   (0x1fbc, 0x1fbc, 1, 0x1fb3); (0x1fc8, 0x1fcb, 1, 0x1f72); (0x1fcc, 0x1fcc, 1, 0x1fc3);
   (0x1fd8, 0x1fd9, 1, 0x1fd0); (0x1fda, 0x1fdb, 1, 0x1f76); (0x1fe8, 0x1fe9, 1, 0x1fe0);
   (0x1fea, 0x1feb, 1, 0x1f7a); (0x1fec, 0x1fec, 1, 0x1fe5); (0x1ff8, 0x1ff9, 1, 0x1f78);
   (0x1ffa, 0x1ffb, 1, 0x1f7c); (0x1ffc, 0x1ffc, 1, 0x1ff3); (0x2126, 0x2126, 1, 0x3c9);
   (0x212a, 0x212a, 1, 0x6b); (0x212b, 0x212b, 1, 0xe5); (0x2132, 0x2132, 1, 0x214e);
   (0x2160, 0x216f, 1, 0x2170); (0x2183, 0x2183, 1, 0x2184); (0x24b6, 0x24cf, 1, 0x24d0);
   (0x2c00, 0x2c2f, 1, 0x2c30); (0x2c60, 0x2c60, 1, 0x2c61); (0x2c62, 0x2c62, 1, 0x26b);
   (0x2c63, 0x2c63, 1, 0x1d7d); (0x2c64, 0x2c64, 1, 0x27d); (0x2c67, 0x2c6b, 2, 0x2c68);
   (0x2c6d, 0x2c6d, 1, 0x251); (0x2c6e, 0x2c6e, 1, 0x271); (0x2c6f, 0x2c6f, 1, 0x250);
   (0x2c70, 0x2c70, 1, 0x252); (0x2c72, 0x2c72, 1, 0x2c73); (0x2c75, 0x2c75, 1, 0x2c76);
   (0x2c7e, 0x2c7f, 1, 0x23f); (0x2c80, 0x2ce2, 2, 0x2c81); (0x2ceb, 0x2ced, 2, 0x2cec);
   (0x2cf2, 0x2cf2, 1, 0x2cf3); (0xa640, 0xa66c, 2, 0xa641); (0xa680, 0xa69a, 2, 0xa681);
   (0xa722, 0xa72e, 2, 0xa723); (0xa732, 0xa76e, 2, 0xa733); (0xa779, 0xa77b, 2, 0xa77a);
   (0xa77d, 0xa77d, 1, 0x1d79); (0xa77e, 0xa786, 2, 0xa77f); (0xa78b, 0xa78b, 1, 0xa78c);
   (0xa78d, 0xa78d, 1, 0x265); (0xa790, 0xa792, 2, 0xa791); (0xa796, 0xa7a8, 2, 0xa797);
   (0xa7aa, 0xa7aa, 1, 0x266); (0xa7ab, 0xa7ab, 1, 0x25c); (0xa7ac, 0xa7ac, 1, 0x261);
   (0xa7ad, 0xa7ad, 1, 0x26c); (0xa7ae, 0xa7ae, 1, 0x26a); (0xa7b0, 0xa7b0, 1, 0x29e);
   (0xa7b1, 0xa7b1, 1, 0x287); (0xa7b2, 0xa7b2, 1, 0x29d); (0xa7b3, 0xa7b3, 1, 0xab53);
   (0xa7b4, 0xa7c2, 2, 0xa7b5); (0xa7c4, 0xa7c4, 1, 0xa794); (0xa7c5, 0xa7c5, 1, 0x282);
   (0xa7c6, 0xa7c6, 1, 0x1d8e); (0xa7c7, 0xa7c9, 2, 0xa7c8); (0xa7d0, 0xa7d0, 1, 0xa7d1);
   (0xa7d6, 0xa7d8, 2, 0xa7d7); (0xa7f5, 0xa7f5, 1, 0xa7f6); (0xff21, 0xff3a, 1, 0xff41);
   (0x10400, 0x10427, 1, 0x10428); (0x104b0, 0x104d3, 1, 0x104d8); (0x10570, 0x1057a, 1, 0x10597);
   (0x1057c, 0x1058a, 1, 0x105a3); (0x1058c, 0x10592, 1, 0x105b3); (0x10594, 0x10595, 1, 0x105bb);
   (0x10c80, 0x10cb2, 1, 0x10cc0); (0x118a0, 0x118bf, 1, 0x118c0); (0x16e40, 0x16e5f, 1, 0x16e60);
   (0x1e900, 0x1e921, 1, 0x1e922)]%N.

(** The case-ignorable code points, in ranges. *)
Definition case_ignorable_table : list (N * N) :=
  [(0x27, 0x27); (0x2e, 0x2e); (0x3a, 0x3a); (0x5e, 0x5e);
   (0x60, 0x60); (0xa8, 0xa8); (0xad, 0xad); (0xaf, 0xaf);
   (0xb4, 0xb4); (0xb7, 0xb8); (0x2b0, 0x36f); (0x374, 0x375);
   (0x37a, 0x37a); (0x384, 0x385); (0x387, 0x387); (0x483, 0x489);
   (0x559, 0x559); (0x55f, 0x55f); (0x591, 0x5bd); (0x5bf, 0x5bf);
   (0x5c1, 0x5c2); (0x5c4, 0x5c5); (0x5c7, 0x5c7); (0x5f4, 0x5f4);
   (0x600, 0x605); (0x610, 0x61a); (0x61c, 0x61c); (0x640, 0x640);
   (0x64b, 0x65f); (0x670, 0x670); (0x6d6, 0x6dd); (0x6df, 0x6e8);
   (0x6ea, 0x6ed); (0x70f, 0x70f); (0x711, 0x711); (0x730, 0x74a);
   (0x7a6, 0x7b0); (0x7eb, 0x7f5); (0x7fa, 0x7fa); (0x7fd, 0x7fd);
   (0x816, 0x82d); (0x859, 0x85b); (0x888, 0x888); (0x890, 0x891);
   (0x898, 0x89f); (0x8c9, 0x902); (0x93a, 0x93a); (0x93c, 0x93c);
   (0x941, 0x948); (0x94d, 0x94d); (0x951, 0x957); (0x962, 0x963);
   (0x971, 0x971); (0x981, 0x981); (0x9bc, 0x9bc); (0x9c1, 0x9c4);
   (0x9cd, 0x9cd); (0x9e2, 0x9e3); (0x9fe, 0x9fe); (0xa01, 0xa02);
   (0xa3c, 0xa3c); (0xa41, 0xa42); (0xa47, 0xa48); (0xa4b, 0xa4d);
   (0xa51, 0xa51); (0xa70, 0xa71); (0xa75, 0xa75); (0xa81, 0xa82);
   (0xabc, 0xabc); (0xac1, 0xac5); (0xac7, 0xac8); (0xacd, 0xacd);
   (0xae2, 0xae3); (0xafa, 0xaff); (0xb01, 0xb01); (0xb3c, 0xb3c);
   (0xb3f, 0xb3f); (0xb41, 0xb44); (0xb4d, 0xb4d); (0xb55, 0xb56);
   (0xb62, 0xb63); (0xb82, 0xb82); (0xbc0, 0xbc0); (0xbcd, 0xbcd);
   (0xc00, 0xc00); (0xc04, 0xc04); (0xc3c, 0xc3c); (0xc3e, 0xc40);
   (0xc46, 0xc48); (0xc4a, 0xc4d); (0xc55, 0xc56); (0xc62, 0xc63);
   (0xc81, 0xc81); (0xcbc, 0xcbc); (0xcbf, 0xcbf); (0xcc6, 0xcc6);
   (0xccc, 0xccd); (0xce2, 0xce3); (0xd00, 0xd01); (0xd3b, 0xd3c);
   (0xd41, 0xd44); (0xd4d, 0xd4d); (0xd62, 0xd63); (0xd81, 0xd81);
   (0xdca, 0xdca); (0xdd2, 0xdd4); (0xdd6, 0xdd6); (0xe31, 0xe31);
   (0xe34, 0xe3a); (0xe46, 0xe4e); (0xeb1, 0xeb1); (0xeb4, 0xebc);
   (0xec6, 0xec6); (0xec8, 0xecd); (0xf18, 0xf19); (0xf35, 0xf35);
   (0xf37, 0xf37); (0xf39, 0xf39); (0xf71, 0xf7e); (0xf80, 0xf84);
   (0xf86, 0xf87); (0xf8d, 0xf97); (0xf99, 0xfbc); (0xfc6, 0xfc6);
   (0x102d, 0x1030); (0x1032, 0x1037); (0x1039, 0x103a); (0x103d, 0x103e);
   (0x1058, 0x1059); (0x105e, 0x1060); (0x1071, 0x1074); (0x1082, 0x1082);
   (0x1085, 0x1086); (0x108d, 0x108d); (0x109d, 0x109d); (0x10fc, 0x10fc);
   (0x135d, 0x135f); (0x1712, 0x1714); (0x1732, 0x1733); (0x1752, 0x1753);
   (0x1772, 0x1773); (0x17b4, 0x17b5); (0x17b7, 0x17bd); (0x17c6, 0x17c6);
   (0x17c9, 0x17d3); (0x17d7, 0x17d7); (0x17dd, 0x17dd); (0x180b, 0x180f);
   (0x1843, 0x1843); (0x1885, 0x1886); (0x18a9, 0x18a9); (0x1920, 0x1922);
   (0x1927, 0x1928); (0x1932, 0x1932); (0x1939, 0x193b); (0x1a17, 0x1a18);
   (0x1a1b, 0x1a1b); (0x1a56, 0x1a56); (0x1a58, 0x1a5e); (0x1a60, 0x1a60);
   (0x1a62, 0x1a62); (0x1a65, 0x1a6c); (0x1a73, 0x1a7c); (0x1a7f, 0x1a7f);
   (0x1aa7, 0x1aa7); (0x1ab0, 0x1ace); (0x1b00, 0x1b03); (0x1b34, 0x1b34);
   (0x1b36, 0x1b3a); (0x1b3c, 0x1b3c); (0x1b42, 0x1b42); (0x1b6b, 0x1b73);
   (0x1b80, 0x1b81); (0x1ba2, 0x1ba5); (0x1ba8, 0x1ba9); (0x1bab, 0x1bad);
   (0x1be6, 0x1be6); (0x1be8, 0x1be9); (0x1bed, 0x1bed); (0x1bef, 0x1bf1);
   (0x1c2c, 0x1c33); (0x1c36, 0x1c37); (0x1c78, 0x1c7d); (0x1cd0, 0x1cd2);
   (0x1cd4, 0x1ce0); (0x1ce2, 0x1ce8); (0x1ced, 0x1ced); (0x1cf4, 0x1cf4);
   (0x1cf8, 0x1cf9); (0x1d2c, 0x1d6a); (0x1d78, 0x1d78); (0x1d9b, 0x1dff);
   (0x1fbd, 0x1fbd); (0x1fbf, 0x1fc1); (0x1fcd, 0x1fcf); (0x1fdd, 0x1fdf);
   (0x1fed, 0x1fef); (0x1ffd, 0x1ffe); (0x200b, 0x200f); (0x2018, 0x2019);
   (0x2024, 0x2024); (0x2027, 0x2027); (0x202a, 0x202e); (0x2060, 0x2064);
   (0x2066, 0x206f); (0x2071, 0x2071); (0x207f, 0x207f); (0x2090, 0x209c);
   (0x20d0, 0x20f0); (0x2c7c, 0x2c7d); (0x2cef, 0x2cf1); (0x2d6f, 0x2d6f);
   (0x2d7f, 0x2d7f); (0x2de0, 0x2dff); (0x2e2f, 0x2e2f); (0x3005, 0x3005);
   (0x302a, 0x302d); (0x3031, 0x3035); (0x303b, 0x303b); (0x3099, 0x309e);
   (0x30fc, 0x30fe); (0xa015, 0xa015); (0xa4f8, 0xa4fd); (0xa60c, 0xa60c);
   (0xa66f, 0xa672); (0xa674, 0xa67d); (0xa67f, 0xa67f); (0xa69c, 0xa69f);
   (0xa6f0, 0xa6f1); (0xa700, 0xa721); (0xa770, 0xa770); (0xa788, 0xa78a);
   (0xa7f2, 0xa7f4); (0xa7f8, 0xa7f9); (0xa802, 0xa802); (0xa806, 0xa806);
   (0xa80b, 0xa80b); (0xa825, 0xa826); (0xa82c, 0xa82c); (0xa8c4, 0xa8c5);
   (0xa8e0, 0xa8f1); (0xa8ff, 0xa8ff); (0xa926, 0xa92d); (0xa947, 0xa951);
   (0xa980, 0xa982); (0xa9b3, 0xa9b3); (0xa9b6, 0xa9b9); (0xa9bc, 0xa9bd);
   (0xa9cf, 0xa9cf); (0xa9e5, 0xa9e6); (0xaa29, 0xaa2e); (0xaa31, 0xaa32);
   (0xaa35, 0xaa36); (0xaa43, 0xaa43); (0xaa4c, 0xaa4c); (0xaa70, 0xaa70);
   (0xaa7c, 0xaa7c); (0xaab0, 0xaab0); (0xaab2, 0xaab4); (0xaab7, 0xaab8);
   (0xaabe, 0xaabf); (0xaac1, 0xaac1); (0xaadd, 0xaadd); (0xaaec, 0xaaed);
   (0xaaf3, 0xaaf4); (0xaaf6, 0xaaf6); (0xab5b, 0xab5f); (0xab69, 0xab6b);
   (0xabe5, 0xabe5); (0xabe8, 0xabe8); (0xabed, 0xabed); (0xfb1e, 0xfb1e);
   (0xfbb2, 0xfbc2); (0xfe00, 0xfe0f); (0xfe13, 0xfe13); (0xfe20, 0xfe2f);
   (0xfe52, 0xfe52); (0xfe55, 0xfe55); (0xfeff, 0xfeff); (0xff07, 0xff07);
   (0xff0e, 0xff0e); (0xff1a, 0xff1a); (0xff3e, 0xff3e); (0xff40, 0xff40);
   (0xff70, 0xff70); (0xff9e, 0xff9f); (0xffe3, 0xffe3); (0xfff9, 0xfffb);
   (0x101fd, 0x101fd); (0x102e0, 0x102e0); (0x10376, 0x1037a); (0x10780, 0x10785);
   (0x10787, 0x107b0); (0x107b2, 0x107ba); (0x10a01, 0x10a03); (0x10a05, 0x10a06);
   (0x10a0c, 0x10a0f); (0x10a38, 0x10a3a); (0x10a3f, 0x10a3f); (0x10ae5, 0x10ae6);
   (0x10d24, 0x10d27); (0x10eab, 0x10eac); (0x10f46, 0x10f50); (0x10f82, 0x10f85);
   (0x11001, 0x11001); (0x11038, 0x11046); (0x11070, 0x11070); (0x11073, 0x11074);
   (0x1107f, 0x11081); (0x110b3, 0x110b6); (0x110b9, 0x110ba); (0x110bd, 0x110bd);
   (0x110c2, 0x110c2); (0x110cd, 0x110cd); (0x11100, 0x11102); (0x11127, 0x1112b);
   (0x1112d, 0x11134); (0x11173, 0x11173); (0x11180, 0x11181); (0x111b6, 0x111be);
   (0x111c9, 0x111cc); (0x111cf, 0x111cf); (0x1122f, 0x11231); (0x11234, 0x11234);
   (0x11236, 0x11237); (0x1123e, 0x1123e); (0x112df, 0x112df); (0x112e3, 0x112ea);
   (0x11300, 0x11301); (0x1133b, 0x1133c); (0x11340, 0x11340); (0x11366, 0x1136c);
   (0x11370, 0x11374); (0x11438, 0x1143f); (0x11442, 0x11444); (0x11446, 0x11446);
   (0x1145e, 0x1145e); (0x114b3, 0x114b8); (0x114ba, 0x114ba); (0x114bf, 0x114c0);
   (0x114c2, 0x114c3); (0x115b2, 0x115b5); (0x115bc, 0x115bd); (0x115bf, 0x115c0);
   (0x115dc, 0x115dd); (0x11633, 0x1163a); (0x1163d, 0x1163d); (0x1163f, 0x11640);
   (0x116ab, 0x116ab); (0x116ad, 0x116ad); (0x116b0, 0x116b5); (0x116b7, 0x116b7);
   (0x1171d, 0x1171f); (0x11722, 0x11725); (0x11727, 0x1172b); (0x1182f, 0x11837);
   (0x11839, 0x1183a); (0x1193b, 0x1193c); (0x1193e, 0x1193e); (0x11943, 0x11943);
   (0x119d4, 0x119d7); (0x119da, 0x119db); (0x119e0, 0x119e0); (0x11a01, 0x11a0a);
   (0x11a33, 0x11a38); (0x11a3b, 0x11a3e); (0x11a47, 0x11a47); (0x11a51, 0x11a56);
   (0x11a59, 0x11a5b); (0x11a8a, 0x11a96); (0x11a98, 0x11a99); (0x11c30, 0x11c36);
   (0x11c38, 0x11c3d); (0x11c3f, 0x11c3f); (0x11c92, 0x11ca7); (0x11caa, 0x11cb0);
   (0x11cb2, 0x11cb3); (0x11cb5, 0x11cb6); (0x11d31, 0x11d36); (0x11d3a, 0x11d3a);
   (0x11d3c, 0x11d3d); (0x11d3f, 0x11d45); (0x11d47, 0x11d47); (0x11d90, 0x11d91);
   (0x11d95, 0x11d95); (0x11d97, 0x11d97); (0x11ef3, 0x11ef4); (0x13430, 0x13438);
   (0x16af0, 0x16af4); (0x16b30, 0x16b36); (0x16b40, 0x16b43); (0x16f4f, 0x16f4f);
   (0x16f8f, 0x16f9f); (0x16fe0, 0x16fe1); (0x16fe3, 0x16fe4); (0x1aff0, 0x1aff3);
   (0x1aff5, 0x1affb); (0x1affd, 0x1affe); (0x1bc9d, 0x1bc9e); (0x1bca0, 0x1bca3);
   (0x1cf00, 0x1cf2d); (0x1cf30, 0x1cf46); (0x1d167, 0x1d169); (0x1d173, 0x1d182);
   (0x1d185, 0x1d18b); (0x1d1aa, 0x1d1ad); (0x1d242, 0x1d244); (0x1da00, 0x1da36);
   (0x1da3b, 0x1da6c); (0x1da75, 0x1da75); (0x1da84, 0x1da84); (0x1da9b, 0x1da9f);
   (0x1daa1, 0x1daaf); (0x1e000, 0x1e006); (0x1e008, 0x1e018); (0x1e01b, 0x1e021);
   (0x1e023, 0x1e024); (0x1e026, 0x1e02a); (0x1e130, 0x1e13d); (0x1e2ae, 0x1e2ae);
   (0x1e2ec, 0x1e2ef); (0x1e8d0, 0x1e8d6); (0x1e944, 0x1e94b); (0x1f3fb, 0x1f3ff);
   (0xe0001, 0xe0001); (0xe0020, 0xe007f); (0xe0100, 0xe01ef)]%N.

(** The cased code points, in ranges. *)
Definition cased_table : list (N * N) :=
  [(0x41, 0x5a); (0x61, 0x7a); (0xaa, 0xaa); (0xb5, 0xb5);
   (0xba, 0xba); (0xc0, 0xd6); (0xd8, 0xf6); (0xf8, 0x1ba);
   (0x1bc, 0x1bf); (0x1c4, 0x293); (0x295, 0x2b8); (0x2c0, 0x2c1);
   (0x2e0, 0x2e4); (0x345, 0x345); (0x370, 0x373); (0x376, 0x377);
   (0x37a, 0x37d); (0x37f, 0x37f); (0x386, 0x386); (0x388, 0x38a);
   (0x38c, 0x38c); (0x38e, 0x3a1); (0x3a3, 0x3f5); (0x3f7, 0x481);
   (0x48a, 0x52f); (0x531, 0x556); (0x560, 0x588); (0x10a0, 0x10c5);
   (0x10c7, 0x10c7); (0x10cd, 0x10cd); (0x10d0, 0x10fa); (0x10fd, 0x10ff);
   (0x13a0, 0x13f5); (0x13f8, 0x13fd); (0x1c80, 0x1c88); (0x1c90, 0x1cba);
   (0x1cbd, 0x1cbf); (0x1d00, 0x1dbf); (0x1e00, 0x1f15); (0x1f18, 0x1f1d);
   (0x1f20, 0x1f45); (0x1f48, 0x1f4d); (0x1f50, 0x1f57); (0x1f59, 0x1f59);
   (0x1f5b, 0x1f5b); (0x1f5d, 0x1f5d); (0x1f5f, 0x1f7d); (0x1f80, 0x1fb4);
   (0x1fb6, 0x1fbc); (0x1fbe, 0x1fbe); (0x1fc2, 0x1fc4); (0x1fc6, 0x1fcc);
   (0x1fd0, 0x1fd3); (0x1fd6, 0x1fdb); (0x1fe0, 0x1fec); (0x1ff2, 0x1ff4);
   (0x1ff6, 0x1ffc); (0x2071, 0x2071); (0x207f, 0x207f); (0x2090, 0x209c);
   (0x2102, 0x2102); (0x2107, 0x2107); (0x210a, 0x2113); (0x2115, 0x2115);
   (0x2119, 0x211d); (0x2124, 0x2124); (0x2126, 0x2126); (0x2128, 0x2128);
   (0x212a, 0x212d); (0x212f, 0x2134); (0x2139, 0x2139); (0x213c, 0x213f);
   (0x2145, 0x2149); (0x214e, 0x214e); (0x2160, 0x217f); (0x2183, 0x2184);
   (0x24b6, 0x24e9); (0x2c00, 0x2ce4); (0x2ceb, 0x2cee); (0x2cf2, 0x2cf3);
   (0x2d00, 0x2d25); (0x2d27, 0x2d27); (0x2d2d, 0x2d2d); (0xa640, 0xa66d);
   (0xa680, 0xa69d); (0xa722, 0xa787); (0xa78b, 0xa78e); (0xa790, 0xa7ca);
   (0xa7d0, 0xa7d1); (0xa7d3, 0xa7d3); (0xa7d5, 0xa7d9); (0xa7f5, 0xa7f6);
   (0xa7f8, 0xa7fa); (0xab30, 0xab5a); (0xab5c, 0xab68); (0xab70, 0xabbf);
   (0xfb00, 0xfb06); (0xfb13, 0xfb17); (0xff21, 0xff3a); (0xff41, 0xff5a);
   (0x10400, 0x1044f); (0x104b0, 0x104d3); (0x104d8, 0x104fb); (0x10570, 0x1057a);
   (0x1057c, 0x1058a); (0x1058c, 0x10592); (0x10594, 0x10595); (0x10597, 0x105a1);
   (0x105a3, 0x105b1); (0x105b3, 0x105b9); (0x105bb, 0x105bc); (0x10780, 0x10780);
   (0x10783, 0x10785); (0x10787, 0x107b0); (0x107b2, 0x107ba); (0x10c80, 0x10cb2);
   (0x10cc0, 0x10cf2); (0x118a0, 0x118df); (0x16e40, 0x16e7f); (0x1d400, 0x1d454);
   (0x1d456, 0x1d49c); (0x1d49e, 0x1d49f); (0x1d4a2, 0x1d4a2); (0x1d4a5, 0x1d4a6);
   (0x1d4a9, 0x1d4ac); (0x1d4ae, 0x1d4b9); (0x1d4bb, 0x1d4bb); (0x1d4bd, 0x1d4c3);
   (0x1d4c5, 0x1d505); (0x1d507, 0x1d50a); (0x1d50d, 0x1d514); (0x1d516, 0x1d51c);
   (0x1d51e, 0x1d539); (0x1d53b, 0x1d53e); (0x1d540, 0x1d544); (0x1d546, 0x1d546);
   (0x1d54a, 0x1d550); (0x1d552, 0x1d6a5); (0x1d6a8, 0x1d6c0); (0x1d6c2, 0x1d6da);
   (0x1d6dc, 0x1d6fa); (0x1d6fc, 0x1d714); (0x1d716, 0x1d734); (0x1d736, 0x1d74e);
   (0x1d750, 0x1d76e); (0x1d770, 0x1d788); (0x1d78a, 0x1d7a8); (0x1d7aa, 0x1d7c2);
   (0x1d7c4, 0x1d7cb); (0x1df00, 0x1df09); (0x1df0b, 0x1df1e); (0x1e900, 0x1e943);
   (0x1f130, 0x1f149); (0x1f150, 0x1f169); (0x1f170, 0x1f189)]%N.

(** The white-space code points ([str.isspace]), in ranges. *)
Definition space_table : list (N * N) :=
  [(0x9, 0xd); (0x1c, 0x20); (0x85, 0x85); (0xa0, 0xa0);
   (0x1680, 0x1680); (0x2000, 0x200a); (0x2028, 0x2029); (0x202f, 0x202f);
   (0x205f, 0x205f); (0x3000, 0x3000)]%N.

Definition in_ranges (c : N) (ranges : list (N * N)) : bool :=
  existsb (λ '(lo, hi), (lo <=? c) && (c <=? hi))%N ranges.

Definition case_ignorable (c : N) : bool := in_ranges c case_ignorable_table.
Definition cased (c : N) : bool := in_ranges c cased_table.
Definition is_space (c : N) : bool := in_ranges c space_table.

Definition covers (c : N) (run : N * N * N * N) : bool :=
  let '(lo, hi, step, _) := run in
  ((lo <=? c) && (c <=? hi) && ((c - lo) mod step =? 0))%N.

(** The lower-case mapping of one code point, out of context. U+0130 is
    the one code point with a longer image. *)
Definition to_lower (c : N) : text :=
  if (c =? 0x130)%N then [0x69; 0x307]%N
  else
    match find (covers c) lower_table with
    | Some (lo, _, _, image) => [image + (c - lo)]%N
    | None => [c]
    end.

(** The context of a capital sigma (U+03A3): it is final when a cased
    letter comes before it and none after it, case-ignorable code points
    skipped on both sides. *)
Fixpoint skip_ignorable (s : text) : text :=
  match s with
  | c :: s' => if case_ignorable c then skip_ignorable s' else s
  | [] => []
  end.

Definition final_sigma (before after : text) : bool :=
  match skip_ignorable before with
  | c :: _ => cased c
  | [] => false
  end
  && match skip_ignorable after with
     | c :: _ => negb (cased c)
     | [] => true
     end.

(** [str.lower()]. [before] holds the code points already passed, the
    nearest first. *)
Fixpoint lower_from (before : text) (s : text) : text :=
  match s with
  | [] => []
  | c :: rest =>
      (if (c =? 0x3A3)%N
       then [if final_sigma before rest then 0x3C2 else 0x3C3]%N
       else to_lower c)
      ++ lower_from (c :: before) rest
  end.

Definition lower (s : text) : text := lower_from [] s.

(** [str.strip()]: white space is removed at both ends. *)
Fixpoint lstrip (s : text) : text :=
  match s with
  | [] => []
  | c :: s' => if is_space c then lstrip s' else s
  end.

Fixpoint rstrip (s : text) : text :=
  match s with
  | [] => []
  | c :: s' =>
      match rstrip s' with
      | [] => if is_space c then [] else [c]
      | t => c :: t
      end
  end.

Definition strip (s : text) : text := rstrip (lstrip s).

(** [needle in hay] on texts: substring test. *)
Fixpoint starts_with (needle hay : text) : bool :=
  match needle, hay with
  | [], _ => true
  | x :: needle', y :: hay' => (x =? y)%N && starts_with needle' hay'
  | _ :: _, [] => false
  end.

Fixpoint contains (needle hay : text) : bool :=
  starts_with needle hay ||
  match hay with
  | [] => false
  | _ :: hay' => contains needle hay'
  end.

(** [x in [s1, s2, ...]] for a text [x] and a list of texts. *)
Definition in_list (x : text) (l : list text) : bool :=
  existsb (text_eqb x) l.

(** A float as far as the helpers observe one: [pd.isna] tells NaN apart,
    [bool()] tells the zeros apart, and [str()] gives the [repr] text.
    Any other float is therefore kept as its [repr] text, which
    identifies it. [np.float64] is a subclass of [float] and behaves the
    same. *)
Inductive pyfloat :=
  | FNaN
  | FZero (negative : bool)
  | FOther (repr : text).

(** The objects found in the cells of a row read by [pd.read_excel], and
    [None]. A row of mixed columns is an object Series of Python scalars
    ([bool], [int], [float], [str]). Any other object (the [np.int64] or
    [np.bool_] of a row whose columns all have that type, a [Timestamp])
    is no instance of [bool], [str], [int] or [float] and is not missing;
    the helpers observe its truth value and its [str()] only: [VObj].
    [NaT] is missing for [pd.isna]. *)
Inductive pyval :=
  | VNone
  | VBool (b : bool)
  | VInt (z : Z)
  | VFloat (f : pyfloat)
  | VStr (s : text)
  | VObj (truth : bool) (str : text)
  | VNaT.

(** The exceptions that occur. [OtherError] stands for whatever the
    spreadsheet reader raises. *)
Inductive exn :=
  | TypeError
  | AttributeError
  | FileNotFoundError
  | OtherError (name : string).

(** A computation that returns or raises. *)
Inductive result (A : Type) :=
  | Ok (a : A)
  | Raise (e : exn).
Arguments Ok {A} a.
Arguments Raise {A} e.

Definition bind {A B} (m : result A) (k : A → result B) : result B :=
  match m with
  | Ok a => k a
  | Raise e => Raise e
  end.

(** [pd.isna(value) or value is None], and [pd.notna]. *)
Definition isna (v : pyval) : bool :=
  match v with
  | VNone | VFloat FNaN | VNaT => true
  | _ => false
  end.

Definition notna (v : pyval) : bool := negb (isna v).

(** [bool(value)] for a float and for any cell value. NaN is truthy. *)
Definition float_truthy (f : pyfloat) : bool :=
  match f with
  | FZero _ => false
  | FNaN | FOther _ => true
  end.

Definition truthy (v : pyval) : bool :=
  match v with
  | VNone => false
  | VBool b => b
  | VInt z => negb (z =? 0)%Z
  | VFloat f => float_truthy f
  | VStr s => negb (text_eqb s [])
  | VObj truth _ => truth
  | VNaT => true
  end.

(** [str(value)]. *)
Definition float_str (f : pyfloat) : text :=
  match f with
  | FNaN => u "nan"
  | FZero false => u "0.0"
  | FZero true => u "-0.0"
  | FOther r => r
  end.

Definition py_str (v : pyval) : text :=
  match v with
  | VNone => u "None"
  | VBool true => u "True"
  | VBool false => u "False"
  | VInt z => u (pretty z)
  | VFloat f => float_str f
  | VStr s => s
  | VObj _ s => s
  | VNaT => u "NaT"
  end.

(** [value.lower()] on an arbitrary object: only [str] has the method. *)
Definition py_lower (v : pyval) : result text :=
  match v with
  | VStr s => Ok (lower s)
  | _ => Raise AttributeError
  end.

End Py.

Export Py.

#[export] Instance result_ret : MRet result := @Ok.
#[export] Instance result_bind : MBind result := fun A B k m => bind m k.

(** ** The helpers *)

(** A row of the data frame: a [pd.Series] indexed by column name. *)
Abbreviation row := (gmap string pyval).
Abbreviation dataframe := (list (gmap string pyval)).

(** [_get_column_value(row, possible_columns)], lines 70-84. *)
Fixpoint _get_column_value (r : row) (possible_columns : list string) : pyval :=
  match possible_columns with
  | [] => VNone
  | col :: rest =>
      match r !! col with
      | Some v => if notna v then v else _get_column_value r rest
      | None => _get_column_value r rest
      end
  end.

(** [_normalize_boolean(value)], lines 86-112. In the [str] branch the
    parameter is rebound to the lower-cased, stripped text; when neither
    list holds it, the function falls through the numeric test (a [str]
    is no [int] or [float]) to the final [return None]. A [bool] is
    returned before the numeric test is reached. An object that is no
    [bool], [str], [int] or [float] reaches the final [return None]. *)
Definition _normalize_boolean (value : pyval) : pyval :=
  if isna value then VNone else
  match value with
  | VBool _ => value
  | VStr s =>
      let value := strip (lower s) in
      if in_list value
           (u <$> ["true"; "yes"; "نعم"; "1"; "موجود"; "متوفر"])
      then VStr (u "متوفر")
      else if in_list value
           (u <$> ["false"; "no"; "لا"; "0"; "غير موجود"; "غير متوفر"])
      then VStr (u "غير متوفر")
      else VNone
  | VInt _ | VFloat _ => VBool (truthy value)
  | VObj _ _ | VNone | VNaT => VNone
  end.

(** [_normalize_status(value)], lines 114-134. The [str] branch rebinds
    [value], so the final [str(value)] sees the lower-cased, stripped
    text. *)
Definition _normalize_status (value : pyval) : pyval :=
  if isna value then VNone else
  match value with
  | VStr s =>
      let value := strip (lower s) in
      if in_list value
           (u <$> ["working"; "active"; "يعمل"; "نشط"; "فعال"; "Automated";
                   "automated"])
      then VStr (u "Working")
      else if in_list value
           (u <$> ["not working"; "inactive"; "لا يعمل"; "غير نشط"; "معطل";
                   "Not Automated"; "not automated"])
      then VStr (u "Not Working")
      else VStr (py_str (VStr value))
  | _ => VStr (py_str value)
  end.

(** The dictionary [station_data] built for a row, lines 41-51. *)
Module Station.
Record t := mk {
  region : pyval;
  city : pyval;
  fuel_station : pyval;
  station_status : pyval;
  rfid : pyval;
  smart_cars : pyval;
  diesel : pyval;
  district : pyval
}.
End Station.

Definition make_station_data (r : row) : Station.t := {|
  Station.region := _get_column_value r ["Region"; "region"];
  Station.city := _get_column_value r ["City"; "المدينة"; "city"];
  Station.fuel_station :=
    _get_column_value r
      ["Fuel Station Name"; "fuel_station"; "station_name"; "اسم المحطة"];
  Station.station_status :=
    _normalize_status
      (_get_column_value r
         ["Status"; "status of the station"; "station_status"; "حالة المحطة"]);
  Station.rfid :=
    _normalize_boolean
      (_get_column_value r ["Control Service Type"; "RFID"; "rfid"]);
  Station.smart_cars :=
    _normalize_boolean
      (_get_column_value r
         ["Smart Card"; "smart cars"; "smart_cars"; "السيارات الذكية"]);
  Station.diesel :=
    _normalize_boolean (_get_column_value r ["Diesel"; "diesel"; "ديزل"]);
  Station.district :=
    _get_column_value r ["اسم الحي"; "الحي"; "district"; "area"; "اسم الحي "]
|}.

(** ** The scan *)

(** How one iteration of the [for] loop ends when it does not raise:
    it goes on to the next row ([continue] or the end of the body), or
    it leaves the loop ([break]). *)
Inductive flow := Next | Break.

(** The argument [city]: [None] or a [str]; [if city] holds for a
    non-empty text. *)
Definition city_given (city : option text) : bool :=
  match city with
  | Some c => negb (text_eqb c [])
  | None => false
  end.

(** The body of the loop, lines 41-63, on the list [all_stations] as it
    stands. A raised exception leaves [all_stations] as it was: the
    [append] is the last statement. *)
Definition loop_body (city : option text) (r : row)
    (all_stations : list Station.t) : result (flow * list Station.t) :=
  let station_data := make_station_data r in
  status ← py_lower (Station.station_status station_data);
  if text_eqb status (lower (u "Not Working"))
  then mret (Break, all_stations)
  else
    skip ← (if city_given city && truthy (Station.city station_data)
            then station_city ← py_lower (Station.city station_data);
                 mret (negb (contains (lower (default [] city)) station_city))
            else mret false);
    if (skip : bool) then mret (Next, all_stations)
    else if truthy (Station.fuel_station station_data)
            && notna (Station.fuel_station station_data)
    then mret (Next, all_stations ++ [station_data])
    else mret (Next, all_stations).

(** The [for] loop inside [try], lines 38-66: the list when the loop is
    left, and the exception that ended it, if one did. *)
Fixpoint for_rows (city : option text) (rows : dataframe)
    (all_stations : list Station.t) : list Station.t * option exn :=
  match rows with
  | [] => (all_stations, None)
  | r :: rest =>
      match loop_body city r all_stations with
      | Raise e => (all_stations, Some e)
      | Ok (Break, all_stations') => (all_stations', None)
      | Ok (Next, all_stations') => for_rows city rest all_stations'
      end
  end.

(** [df.drop(columns=[...], errors='ignore')], line 35. *)
Definition dropped_columns : list string :=
  ["Unnamed: 13"; "Region.1"; "# of Sites"; "RFID.1"; "Smart Card.1";
   "Unnamed: 0"; "SN"].

Definition drop_columns (df : dataframe) : dataframe :=
  (fun r : row => foldr delete r dropped_columns) <$> df.

(** Lines 29-68 for a given outcome of [pd.read_excel]: the handler of
    [except Exception] prints and execution goes on to
    [return all_stations]. *)
Definition try_block (read_excel : result dataframe) (city : option text)
    : list Station.t :=
  match read_excel with
  | Raise e => []
  | Ok df => (for_rows city (drop_columns df) []).1
  end.

(** ** The whole function *)

(** The left operand of [/] at line 25 and the receiver of [.exists()]
    at line 26: a [str], or a [pathlib.Path] given by its text. *)
Inductive pathlike :=
  | AStr (s : string)
  | APath (p : string).

(** [a / b] for a [str] [b]: [str] has no [__truediv__] (and no
    [__rtruediv__] for a [str] on the left), a [Path] joins. *)
Definition truediv (a : pathlike) (b : string) : result pathlike :=
  match a with
  | AStr _ => Raise TypeError
  | APath p => Ok (APath (p +:+ "/" +:+ b))
  end.

(** The file system as the function sees it: for each path, whether a
    file is there, and if so what [pd.read_excel(path, header=2)]
    gives, a data frame or an exception. *)
Abbreviation filesystem := (gmap string (result (list (gmap string pyval)))).

(** [excel_file.exists()]. *)
Definition path_exists (fs : filesystem) (excel_file : pathlike) : result bool :=
  match excel_file with
  | AStr _ => Raise AttributeError
  | APath p => Ok (bool_decide (is_Some (fs !! p)))
  end.

(** [pd.read_excel(excel_file, header=2)]. *)
Definition read_excel (fs : filesystem) (excel_file : pathlike)
    : result dataframe :=
  match excel_file with
  | AStr p | APath p =>
      match fs !! p with
      | Some r => r
      | None => Raise FileNotFoundError
      end
  end.

(** [read_fuel_station_records(city)], lines 23-68: line 23 binds
    [records_path] to the [str] "data". *)
Definition read_fuel_station_records (fs : filesystem) (city : option text)
    : result (list Station.t) :=
  let records_path := AStr "data" in
  excel_file ← truediv records_path "محطات- الوسطى.xlsx";
  present ← path_exists fs excel_file;
  if negb present then Raise FileNotFoundError
  else mret (try_block (read_excel fs excel_file) city).

(** ** Sample rows *)

Definition sample_row (name status city : string) : row :=
  <["Fuel Station Name" := VStr (u name)]>
    (<["Status" := VStr (u status)]> (<["City" := VStr (u city)]> ∅)).

(** The four rows of the halt example: Working, Working, Not Working,
    Working. *)
Definition halt_rows : dataframe :=
  [sample_row "S1" "Working" "Riyadh"; sample_row "S2" "Working" "Riyadh";
   sample_row "S3" "Not Working" "Riyadh"; sample_row "S4" "Working" "Riyadh"].

(** A row with a station name and no status cell. *)
Definition station_no_status : row :=
  <["Fuel Station Name" := VStr (u "X")]> (<["City" := VStr (u "Riyadh")]> ∅).

(** A row with a status and a city and no station name. *)
Definition station_no_name : row :=
  <["Status" := VStr (u "Working")]> (<["City" := VStr (u "Riyadh")]> ∅).

(** A row with a station name and a status and no city cell. *)
Definition station_no_city : row :=
  <["Fuel Station Name" := VStr (u "A")]> (<["Status" := VStr (u "Working")]> ∅).

(** A row of blank cells. *)
Definition station_blank : row :=
  <["Fuel Station Name" := VFloat FNaN]>
    (<["Status" := VFloat FNaN]> (<["City" := VFloat FNaN]> ∅)).

(** Rows with a number in the city cell: zero, and seven. *)
Definition station_zero_city : row :=
  <["Fuel Station Name" := VStr (u "Z")]>
    (<["Status" := VStr (u "Working")]> (<["City" := VInt 0]> ∅)).

Definition station_numeric_city : row :=
  <["Fuel Station Name" := VStr (u "N")]>
    (<["Status" := VStr (u "Working")]> (<["City" := VInt 7]> ∅)).

Definition station_A : row := sample_row "A" "يعمل" "Riyadh".
Definition station_B : row := sample_row "B" "لا يعمل" "Riyadh".
Definition station_C : row := sample_row "C" "يعمل" "Jeddah".

(** ** The documented tables

    The alias lists and word sets as the specification documents them,
    to be compared with the literals of the code. *)

Module Spec.

Inductive field :=
  | Region | City | FuelStation | StationStatus
  | Rfid | SmartCars | Diesel | District.

Definition aliases (f : field) : list string :=
  match f with
  | Region => ["Region"; "region"]
  | City => ["City"; "المدينة"; "city"]
  | FuelStation =>
      ["Fuel Station Name"; "fuel_station"; "station_name"; "اسم المحطة"]
  | StationStatus =>
      ["Status"; "status of the station"; "station_status"; "حالة المحطة"]
  | Rfid => ["Control Service Type"; "RFID"; "rfid"]
  | SmartCars => ["Smart Card"; "smart cars"; "smart_cars"; "السيارات الذكية"]
  | Diesel => ["Diesel"; "diesel"; "ديزل"]
  | District => ["اسم الحي"; "الحي"; "district"; "area"; "اسم الحي "]
  end.

Definition true_words : list text :=
  u <$> ["true"; "yes"; "نعم"; "1"; "موجود"; "متوفر"].
Definition false_words : list text :=
  u <$> ["false"; "no"; "لا"; "0"; "غير موجود"; "غير متوفر"].

Definition working_words : list text :=
  u <$> ["working"; "active"; "يعمل"; "نشط"; "فعال"; "automated"].
Definition not_working_words : list text :=
  u <$> ["not working"; "inactive"; "لا يعمل"; "غير نشط"; "معطل";
         "not automated"].

End Spec.

(** The tokens returned by the [str] branch of [_normalize_boolean]. *)
Definition available : text := u "متوفر".
Definition not_available : text := u "غير متوفر".

(** ** Vocabulary for the statements *)

(** The halt test of line 53 holds for the row. *)
Definition is_not_working (r : row) : bool :=
  match py_lower (Station.station_status (make_station_data r)) with
  | Ok status => text_eqb status (lower (u "Not Working"))
  | Raise _ => false
  end.

(** The records one row adds to the output, on its own. *)
Definition emitted (city : option text) (r : row) : list Station.t :=
  match loop_body city r [] with
  | Ok (_, l) => l
  | Raise _ => []
  end.

(** The iteration for the row runs to its end: no [break], no exception. *)
Definition goes_on (city : option text) (r : row) : bool :=
  match loop_body city r [] with
  | Ok (Next, _) => true
  | _ => false
  end.

(** The rows whose iteration runs to its end, up to the first row that
    leaves the loop or raises. *)
Fixpoint rows_run (city : option text) (rows : dataframe) : dataframe :=
  match rows with
  | [] => []
  | r :: rest => if goes_on city r then r :: rows_run city rest else []
  end.

(** The city filter of lines 57-59 lets the record through: the guard is
    off, or the city is a text that holds the lower-cased filter city. *)
Definition passes_city (city : option text) (sd : Station.t) : bool :=
  negb (city_given city && truthy (Station.city sd))
  || match Station.city sd with
     | VStr c => contains (lower (default [] city)) (lower c)
     | _ => false
     end.

(** [a] occurs in [b] as a run of consecutive code points. *)
Definition substring (a b : text) : Prop := ∃ pre post, b = pre ++ a ++ post.

(** A code point is stable when lower-casing leaves it alone in any
    context; a run of the table is in order when its images are stable. *)
Definition stableb (x : N) : bool :=
  negb (x =? 0x3A3)%N && text_eqb (to_lower x) [x].

Definition run_ok (run : N * N * N * N) : bool :=
  let '(lo, hi, step, image) := run in
  (0 <? step)%N
  && forallb (λ i, stableb (image + N.of_nat i * step)%N)
       (seq 0 (S (N.to_nat ((hi - lo) / step)))).

(** ** Examples *)

Example lower_example :
  lower (u "Riyadh - Al Olaya") = u "riyadh - al olaya"
  ∧ lower (u "ÉTAT") = u "état"
  ∧ lower (u "ΟΔΟΣ ΣΟΦΟΣ") = u "οδος σοφος".
Proof. vm_compute. done. Qed.

Example strip_example :
  strip (u "  Not  Working ") = u "Not  Working"
  ∧ strip (0xA0%N :: u "working" ++ [0x2003%N]) = u "working".
Proof. vm_compute. done. Qed.

Example py_str_int : py_str (VInt (-42)) = u "-42".
Proof. vm_compute. reflexivity. Qed.

Example end_to_end_unfiltered :
  try_block (Ok [station_A; station_B; station_C]) None
  = [make_station_data station_A].
Proof. vm_compute. reflexivity. Qed.

Example end_to_end_jeddah :
  try_block (Ok [station_A; station_B; station_C]) (Some (u "Jeddah")) = [].
Proof. vm_compute. reflexivity. Qed.

Example normalize_status_samples :
  _normalize_status <$>
    [VStr (u "نشط"); VStr (u "Working"); VStr (u "Automated");
     VStr (u "معطل"); VStr (u "Not Working"); VStr (u "Not Automated");
     VNone; VFloat FNaN; VInt 3; VBool true; VObj true (u "5")]
  = [VStr (u "Working"); VStr (u "Working"); VStr (u "Working");
     VStr (u "Not Working"); VStr (u "Not Working"); VStr (u "Not Working");
     VNone; VNone; VStr (u "3"); VStr (u "True"); VStr (u "5")].
Proof. vm_compute. reflexivity. Qed.

Example normalize_boolean_samples :
  _normalize_boolean <$>
    [VNone; VStr (u "نعم"); VStr (u "true"); VStr (u "1"); VStr (u "لا");
     VStr (u "false"); VStr (u "0"); VInt 0; VInt 1; VFloat (FZero false);
     VFloat (FOther (u "1.0")); VBool false; VObj true (u "1")]
  = [VNone; VStr available; VStr available; VStr available;
     VStr not_available; VStr not_available; VStr not_available;
     VBool false; VBool true; VBool false; VBool true; VBool false; VNone].
Proof. vm_compute. reflexivity. Qed.

(** An exception in the loop keeps the records appended before it. *)
Example abort_keeps_earlier_records :
  for_rows None [station_A; station_no_status; station_C] []
  = ([make_station_data station_A], Some AttributeError).
Proof. vm_compute. reflexivity. Qed.

Example station_A_record :
  make_station_data station_A
  = Station.mk VNone (VStr (u "Riyadh")) (VStr (u "A")) (VStr (u "Working"))
      VNone VNone VNone VNone.
Proof. vm_compute. reflexivity. Qed.

(** Letters beyond ASCII and white space beyond the space character. *)
Example unicode_samples :
  _normalize_status (VStr (u "ÉTAT")) = VStr (u "état")
  ∧ _normalize_status (VStr (0xA0%N :: u "working")) = VStr (u "Working")
  ∧ _normalize_boolean (VStr (u "yes" ++ [0xA0%N])) = VStr available
  ∧ is_not_working
      (<["Status" := VStr (0xA0%N :: u "Not Working")]> ∅) = true
  ∧ emitted (Some (u "É")) (sample_row "A" "Working" "é-town")
    = [make_station_data (sample_row "A" "Working" "é-town")].
Proof. vm_compute. done. Qed.

(** ** Auxiliary facts *)

(** Unfolds the operations of the [result] monad. *)
Ltac unfold_result :=
  unfold mbind, mret, result_bind, result_ret, bind in *.

(** Decides a closed statement by evaluation. *)
Ltac by_evaluation :=
  match goal with
  | |- ?P => refine (@bool_decide_unpack P _ _); vm_compute; exact I
  end.

Lemma text_eqb_eq (a b : text) : text_eqb a b = true ↔ a = b.
Proof.
  revert b. induction a as [|x a IH]; intros [|y b]; cbn [text_eqb];
    try done.
  rewrite andb_true_iff, N.eqb_eq, IH. split; [by intros [-> ->] | ].
  by intros [= -> ->].
Qed.

Lemma text_eqb_neq (a b : text) : text_eqb a b = false ↔ a ≠ b.
Proof.
  rewrite <- text_eqb_eq. destruct (text_eqb a b); split; congruence.
Qed.

Lemma in_list_elem_of (x : text) (l : list text) :
  in_list x l = true ↔ x ∈ l.
Proof.
  unfold in_list. induction l as [|y l IH]; simpl.
  - split; [discriminate | intros H; inversion H].
  - rewrite orb_true_iff, IH, elem_of_cons, text_eqb_eq. tauto.
Qed.

Lemma in_list_not_elem_of (x : text) (l : list text) :
  in_list x l = false ↔ x ∉ l.
Proof.
  rewrite <- in_list_elem_of. destruct (in_list x l); split; congruence.
Qed.

Lemma contains_empty (hay : text) : contains [] hay = true.
Proof. destruct hay; reflexivity. Qed.

(** [starts_with] and [contains] are the prefix and the substring
    tests. *)
Lemma starts_with_prefix (a b : text) :
  starts_with a b = true ↔ ∃ post, b = a ++ post.
Proof.
  revert b. induction a as [|x a IH]; intros b; cbn [starts_with].
  { split; [intros _; by exists b | done]. }
  destruct b as [|y b]; [split; [done | by intros [? ?]]|].
  rewrite andb_true_iff, N.eqb_eq, IH. split.
  - intros [-> [post ->]]. by exists post.
  - intros [post [= -> ->]]. split; [done | by exists post].
Qed.

Lemma contains_substring (a b : text) :
  contains a b = true ↔ substring a b.
Proof.
  unfold substring. induction b as [|y b IH]; cbn [contains].
  - rewrite orb_false_r, starts_with_prefix. split.
    + intros [post H]. by exists [], post.
    + intros (pre & post & H). destruct pre; [by exists post|done].
  - rewrite orb_true_iff, starts_with_prefix, IH. split.
    + intros [[post H]|(pre & post & ->)]; [by exists [], post|].
      by exists (y :: pre), post.
    + intros ([|x pre] & post & H); [left; by exists post|right].
      injection H as -> ->. by exists pre, post.
Qed.

(** *** Lower-casing and stripping *)

Lemma lower_table_ok : forallb run_ok lower_table = true.
Proof. vm_compute. reflexivity. Qed.

Lemma stableb_spec (x : N) :
  stableb x = true → to_lower x = [x] ∧ x ≠ 0x3A3%N.
Proof.
  unfold stableb. intros [H1 H2]%andb_true_iff.
  apply negb_true_iff, N.eqb_neq in H1. by apply text_eqb_eq in H2.
Qed.

(** The images of the lower-case mapping are stable. *)
Lemma to_lower_stable (c : N) :
  c ≠ 0x3A3%N → forallb stableb (to_lower c) = true.
Proof.
  intros Hsigma. unfold to_lower.
  destruct (c =? 0x130)%N eqn:Hdot; [by vm_compute|].
  destruct (find (covers c) lower_table) as [[[[lo hi] step] image]|] eqn:Hf.
  - apply find_some in Hf as [Hin Hc].
    pose proof lower_table_ok as Hok. rewrite forallb_forall in Hok.
    specialize (Hok _ Hin). cbn [run_ok] in Hok.
    apply andb_true_iff in Hok as [Hstep Hok].
    apply N.ltb_lt in Hstep. rewrite forallb_forall in Hok.
    unfold covers in Hc.
    apply andb_true_iff in Hc as [[Hlo Hhi]%andb_true_iff Hmod].
    apply N.leb_le in Hlo, Hhi. apply N.eqb_eq in Hmod.
    assert (c - lo = step * ((c - lo) / step))%N as Hdiv
      by (apply N.Div0.div_exact; done).
    assert ((c - lo) / step ≤ (hi - lo) / step)%N as Hle
      by (apply N.Div0.div_le_mono; lia).
    specialize (Hok (N.to_nat ((c - lo) / step))).
    cbn [forallb]. rewrite andb_true_r.
    replace (image + (c - lo))%N
      with (image + N.of_nat (N.to_nat ((c - lo) / step)) * step)%N
      by (rewrite N2Nat.id; lia).
    apply Hok. apply in_seq. lia.
  - cbn [forallb]. rewrite andb_true_r. unfold stableb, to_lower.
    rewrite Hdot, Hf. apply andb_true_iff. split.
    + by apply negb_true_iff, N.eqb_neq.
    + by apply text_eqb_eq.
Qed.

(** Every code point of a lower-cased text is stable, and lower-casing
    a text of stable code points changes nothing. *)
Lemma lower_from_stable (before s : text) :
  forallb stableb (lower_from before s) = true.
Proof.
  revert before. induction s as [|c s IH]; intros before; [done|].
  cbn [lower_from]. rewrite forallb_app, IH, andb_true_r.
  destruct (c =? 0x3A3)%N eqn:Hc.
  - by destruct (final_sigma before s).
  - apply to_lower_stable. by apply N.eqb_neq.
Qed.

Lemma lower_from_fixed (before s : text) :
  forallb stableb s = true → lower_from before s = s.
Proof.
  revert before. induction s as [|c s IH]; intros before; [done|].
  cbn [forallb lower_from]. intros [Hc Hs]%andb_true_iff.
  apply stableb_spec in Hc as [Hlow Hsigma].
  apply N.eqb_neq in Hsigma. rewrite Hsigma, Hlow, IH by done. done.
Qed.

Lemma lstrip_stable (s : text) :
  forallb stableb s = true → forallb stableb (lstrip s) = true.
Proof.
  induction s as [|c s IH]; cbn [lstrip]; [done|].
  destruct (is_space c); [|done].
  cbn [forallb]. intros [_ Hs]%andb_true_iff. by apply IH.
Qed.

Lemma rstrip_stable (s : text) :
  forallb stableb s = true → forallb stableb (rstrip s) = true.
Proof.
  induction s as [|c s IH]; cbn [rstrip forallb]; [done|].
  intros [Hc Hs]%andb_true_iff. specialize (IH Hs).
  destruct (rstrip s) as [|a t].
  - destruct (is_space c); [done|]. cbn [forallb]. by rewrite Hc.
  - cbn [forallb] in *. by rewrite Hc, IH.
Qed.

Lemma strip_lower_stable (s : text) :
  forallb stableb (strip (lower s)) = true.
Proof. apply rstrip_stable, lstrip_stable, lower_from_stable. Qed.

Lemma rstrip_head (s : text) :
  match rstrip s with
  | a :: _ => ∃ s', s = a :: s'
  | [] => True
  end.
Proof.
  destruct s as [|c s]; cbn [rstrip]; [done|].
  destruct (rstrip s); [destruct (is_space c)|]; eauto.
Qed.

Lemma lstrip_head (s : text) :
  match lstrip s with
  | a :: _ => is_space a = false
  | [] => True
  end.
Proof.
  induction s as [|c s IH]; cbn [lstrip]; [done|].
  by destruct (is_space c) eqn:Hc.
Qed.

Lemma rstrip_idem (s : text) : rstrip (rstrip s) = rstrip s.
Proof.
  induction s as [|c s IH]; cbn [rstrip]; [done|].
  destruct (rstrip s) as [|a t] eqn:Hr.
  - destruct (is_space c) eqn:Hc; cbn [rstrip]; [done|]. by rewrite Hc.
  - cbn [rstrip]. cbn [rstrip] in IH. by rewrite IH.
Qed.

Lemma strip_idem (s : text) : strip (strip s) = strip s.
Proof.
  unfold strip.
  assert (lstrip (rstrip (lstrip s)) = rstrip (lstrip s)) as ->;
    [|apply rstrip_idem].
  pose proof (lstrip_head s) as Hl.
  pose proof (rstrip_head (lstrip s)) as Hr.
  destruct (rstrip (lstrip s)) as [|a t]; [done|].
  destruct Hr as [s' Hs]. rewrite Hs in Hl. cbn [lstrip]. by rewrite Hl.
Qed.

(** Lower-casing and stripping again what was lower-cased and stripped
    changes nothing. *)
Lemma lower_strip_lower (s : text) :
  lower (strip (lower s)) = strip (lower s).
Proof. apply lower_from_fixed, strip_lower_stable. Qed.

Lemma strip_lower_fixed (s : text) :
  strip (lower (strip (lower s))) = strip (lower s).
Proof. by rewrite lower_strip_lower, strip_idem. Qed.

(** A text of stable code points is none that starts with a capital
    Latin letter. *)
Lemma stable_not_capital (t w : text) (a : N) :
  forallb stableb t = true → stableb a = false → text_eqb t (a :: w) = false.
Proof.
  intros Ht Ha. apply text_eqb_neq. intros ->.
  cbn [forallb] in Ht. by rewrite Ha in Ht.
Qed.

(** *** The column lookup *)

(** [_get_column_value] never hands out a missing value other than
    [None]. *)
Lemma get_column_value_notna (r : row) (cols : list string) :
  _get_column_value r cols = VNone ∨ notna (_get_column_value r cols) = true.
Proof.
  induction cols as [|c cols IH]; simpl; [by left|].
  destruct (r !! c) as [v|]; [|exact IH].
  destruct (notna v) eqn:Hv; [by right | exact IH].
Qed.

(** Dropping a column that is no alias does not change the lookup. *)
Lemma get_column_value_delete (r : row) (c : string) (cols : list string) :
  c ∉ cols → _get_column_value (delete c r) cols = _get_column_value r cols.
Proof.
  induction cols as [|c' cols IH]; simpl; [done|].
  intros Hc. apply not_elem_of_cons in Hc as [Hne Hc].
  rewrite lookup_delete_ne by done. rewrite IH by done. reflexivity.
Qed.

Lemma get_column_value_drop (r : row) (cols : list string) :
  Forall (λ c, c ∉ cols) dropped_columns →
  _get_column_value (foldr delete r dropped_columns) cols
  = _get_column_value r cols.
Proof.
  induction 1 as [|c cs Hc _ IH]; simpl; [done|].
  by rewrite get_column_value_delete.
Qed.

Lemma dropped_no_alias (f : Spec.field) :
  Forall (λ c, c ∉ Spec.aliases f) dropped_columns.
Proof. destruct f; by_evaluation. Qed.

(** None of the dropped columns is read by the scan. *)
Lemma make_station_data_drop (r : row) :
  make_station_data (foldr delete r dropped_columns) = make_station_data r.
Proof.
  assert (∀ f, _get_column_value (foldr delete r dropped_columns)
                 (Spec.aliases f) = _get_column_value r (Spec.aliases f)) as H
    by (intros f; apply get_column_value_drop, dropped_no_alias).
  unfold make_station_data.
  pose proof (H Spec.Region) as H1. pose proof (H Spec.City) as H2.
  pose proof (H Spec.FuelStation) as H3.
  pose proof (H Spec.StationStatus) as H4.
  pose proof (H Spec.Rfid) as H5. pose proof (H Spec.SmartCars) as H6.
  pose proof (H Spec.Diesel) as H7. pose proof (H Spec.District) as H8.
  cbn [Spec.aliases] in H1, H2, H3, H4, H5, H6, H7, H8.
  by rewrite H1, H2, H3, H4, H5, H6, H7, H8.
Qed.

(** The station name of a record is [None] or not missing. *)
Lemma fuel_station_truthy_notna (r : row) :
  truthy (Station.fuel_station (make_station_data r))
  && notna (Station.fuel_station (make_station_data r))
  = truthy (Station.fuel_station (make_station_data r)).
Proof.
  cbn [make_station_data Station.fuel_station].
  destruct (get_column_value_notna r
    ["Fuel Station Name"; "fuel_station"; "station_name"; "اسم المحطة"])
    as [H0|H0]; rewrite H0; [done | by rewrite andb_true_r].
Qed.

(** *** The status *)

(** A normalized status is [None] or a text. *)
Lemma normalize_status_shape (v : pyval) :
  _normalize_status v = VNone ∨ ∃ s, _normalize_status v = VStr s.
Proof.
  unfold _normalize_status. destruct (isna v); [by left|right].
  destruct v as [| | | |s| |]; eauto.
  repeat match goal with |- context [if ?b then _ else _] => destruct b end;
    eauto.
Qed.

Lemma normalize_status_missing (v : pyval) :
  _normalize_status v = VNone ↔ isna v = true.
Proof.
  unfold _normalize_status. destruct (isna v) eqn:Hv; [done|].
  split; [|done]. destruct v as [| | | |s| |]; try done.
  repeat match goal with |- context [if ?b then _ else _] => destruct b end;
    done.
Qed.

(** The status of a record is [None] or a text. *)
Lemma station_status_shape (r : row) :
  Station.station_status (make_station_data r) = VNone
  ∨ ∃ s, Station.station_status (make_station_data r) = VStr s.
Proof. apply normalize_status_shape. Qed.

(** On a lower-cased, stripped text the lists of [_normalize_status]
    decide as the documented word sets do: the capitalised entries of
    the code's lists never match. *)
Lemma in_working_list (s : text) :
  in_list (strip (lower s))
    (u <$> ["working"; "active"; "يعمل"; "نشط"; "فعال"; "Automated";
            "automated"])
  = in_list (strip (lower s)) Spec.working_words.
Proof.
  pose proof (stable_not_capital (strip (lower s)) (u "utomated") 0x41%N
                (strip_lower_stable s) eq_refl) as H.
  unfold in_list, Spec.working_words. cbn [existsb fmap list_fmap].
  change (u "Automated") with (0x41%N :: u "utomated"). by rewrite H.
Qed.

Lemma in_not_working_list (s : text) :
  in_list (strip (lower s))
    (u <$> ["not working"; "inactive"; "لا يعمل"; "غير نشط"; "معطل";
            "Not Automated"; "not automated"])
  = in_list (strip (lower s)) Spec.not_working_words.
Proof.
  pose proof (stable_not_capital (strip (lower s)) (u "ot Automated") 0x4E%N
                (strip_lower_stable s) eq_refl) as H.
  unfold in_list, Spec.not_working_words. cbn [existsb fmap list_fmap].
  change (u "Not Automated") with (0x4E%N :: u "ot Automated").
  by rewrite H.
Qed.

(** [_normalize_status] on a text, by the word sets. *)
Lemma normalize_status_text (s : text) :
  _normalize_status (VStr s)
  = if in_list (strip (lower s)) Spec.working_words then VStr (u "Working")
    else if in_list (strip (lower s)) Spec.not_working_words
         then VStr (u "Not Working")
         else VStr (strip (lower s)).
Proof.
  unfold _normalize_status. cbn [isna].
  by rewrite in_working_list, in_not_working_list.
Qed.

(** The two word sets are disjoint. *)
Lemma working_not_not_working (t : text) :
  t ∈ Spec.working_words → t ∉ Spec.not_working_words.
Proof.
  intros Hw. apply in_list_not_elem_of.
  unfold Spec.working_words in Hw. cbn [fmap list_fmap] in Hw.
  repeat (apply elem_of_cons in Hw as [->|Hw]; [by vm_compute|]).
  inversion Hw.
Qed.

(** *** One iteration *)

(** The body of the loop only appends to the list it is given. *)
Lemma loop_body_acc (city : option text) (r : row)
    (all_stations : list Station.t) :
  loop_body city r all_stations
  = match loop_body city r [] with
    | Ok (f, l) => Ok (f, all_stations ++ l)
    | Raise e => Raise e
    end.
Proof.
  unfold loop_body. unfold_result.
  destruct (py_lower (Station.station_status (make_station_data r)))
    as [status|e]; [|done].
  destruct (text_eqb status (lower (u "Not Working"))).
  { by rewrite app_nil_r. }
  destruct (city_given city && truthy (Station.city (make_station_data r))).
  - destruct (py_lower (Station.city (make_station_data r))) as [c|e]; [|done].
    destruct (negb (contains (lower (default [] city)) c)).
    { by rewrite app_nil_r. }
    destruct (truthy (Station.fuel_station (make_station_data r))
              && notna (Station.fuel_station (make_station_data r)));
      by rewrite ?app_nil_r.
  - destruct (truthy (Station.fuel_station (make_station_data r))
              && notna (Station.fuel_station (make_station_data r)));
      by rewrite ?app_nil_r.
Qed.

Lemma loop_body_drop (city : option text) (r : row)
    (all_stations : list Station.t) :
  loop_body city (foldr delete r dropped_columns) all_stations
  = loop_body city r all_stations.
Proof. unfold loop_body. by rewrite make_station_data_drop. Qed.

(** The iteration of a halting row: [break], nothing appended. *)
Lemma loop_body_not_working (city : option text) (r : row)
    (all_stations : list Station.t) :
  is_not_working r = true → loop_body city r all_stations = Ok (Break, all_stations).
Proof.
  unfold is_not_working, loop_body. unfold_result.
  destruct (py_lower (Station.station_status (make_station_data r)))
    as [status|e]; [|done].
  by intros ->.
Qed.

(** The iteration of a row without status: [AttributeError]. *)
Lemma loop_body_no_status (city : option text) (r : row)
    (all_stations : list Station.t) :
  Station.station_status (make_station_data r) = VNone →
  loop_body city r all_stations = Raise AttributeError.
Proof. unfold loop_body. unfold_result. by intros ->. Qed.

(** The iteration of a row whose status is a text other than
    "Not Working", by the cells of its record. *)
Lemma loop_body_text_status (city : option text) (r : row) (s : text)
    (all_stations : list Station.t) :
  Station.station_status (make_station_data r) = VStr s →
  text_eqb (lower s) (lower (u "Not Working")) = false →
  loop_body city r all_stations
  = if city_given city && truthy (Station.city (make_station_data r))
    then match Station.city (make_station_data r) with
         | VStr c =>
             Ok (Next,
                 if contains (lower (default [] city)) (lower c)
                    && truthy (Station.fuel_station (make_station_data r))
                 then all_stations ++ [make_station_data r]
                 else all_stations)
         | _ => Raise AttributeError
         end
    else Ok (Next,
             if truthy (Station.fuel_station (make_station_data r))
             then all_stations ++ [make_station_data r]
             else all_stations).
Proof.
  intros Hst Hnw. unfold loop_body. unfold_result.
  rewrite Hst. cbn [py_lower]. rewrite Hnw.
  rewrite fuel_station_truthy_notna.
  destruct (city_given city && truthy (Station.city (make_station_data r)));
    [|by destruct (truthy _)].
  destruct (Station.city (make_station_data r)) as [| | | |c| |];
    cbn [py_lower]; try done.
  destruct (contains (lower (default [] city)) (lower c)); cbn [negb andb];
    [by destruct (truthy _) | done].
Qed.

(** When the iteration of a row raises. *)
Lemma loop_body_raise_cases (city : option text) (r : row)
    (all_stations : list Station.t) (e : exn) :
  loop_body city r all_stations = Raise e
  ↔ e = AttributeError
    ∧ (Station.station_status (make_station_data r) = VNone
       ∨ ((∃ s, Station.station_status (make_station_data r) = VStr s)
          ∧ is_not_working r = false
          ∧ city_given city = true
          ∧ truthy (Station.city (make_station_data r)) = true
          ∧ ∀ c, Station.city (make_station_data r) ≠ VStr c)).
Proof.
  destruct (station_status_shape r) as [Hst|[s Hst]].
  { rewrite loop_body_no_status by done. split.
    - intros [= <-]. split; [done | by left].
    - by intros [-> _]. }
  unfold is_not_working. rewrite Hst. cbn [py_lower].
  destruct (text_eqb (lower s) (lower (u "Not Working"))) eqn:Hnw.
  { rewrite loop_body_not_working
      by (unfold is_not_working; rewrite Hst; exact Hnw).
    split; [done|]. intros [_ [H|(_ & H & _)]]; done. }
  rewrite (loop_body_text_status city r s) by done.
  destruct (city_given city); cbn [andb];
    [|split; [done|]; intros [_ [H|(_ & _ & H & _)]]; done].
  destruct (truthy (Station.city (make_station_data r))) eqn:Ht;
    [|split; [done|]; intros [_ [H|(_ & _ & _ & H & _)]]; done].
  destruct (Station.city (make_station_data r)) as [| |z|f|c|t s'|] eqn:Hc.
  - done.
  - split; [|by intros [-> _]].
    intros [= <-]. split; [done|]. right. by eauto 10.
  - split; [|by intros [-> _]].
    intros [= <-]. split; [done|]. right. by eauto 10.
  - split; [|by intros [-> _]].
    intros [= <-]. split; [done|]. right. by eauto 10.
  - split; [done|]. intros [_ [H|(_ & _ & _ & _ & H)]]; [done|].
    by destruct (H c).
  - split; [|by intros [-> _]].
    intros [= <-]. split; [done|]. right. by eauto 10.
  - split; [|by intros [-> _]].
    intros [= <-]. split; [done|]. right. by eauto 10.
Qed.

(** What a row adds, by the cells of its record. *)
Lemma emitted_by_cells (city : option text) (r : row) :
  emitted city r
  = if notna (Station.station_status (make_station_data r))
       && negb (is_not_working r)
       && passes_city city (make_station_data r)
       && truthy (Station.fuel_station (make_station_data r))
    then [make_station_data r]
    else [].
Proof.
  unfold emitted.
  destruct (station_status_shape r) as [Hst|[s Hst]].
  { rewrite loop_body_no_status by done. by rewrite Hst. }
  rewrite Hst. cbn [notna isna negb andb].
  unfold is_not_working. rewrite Hst. cbn [py_lower].
  destruct (text_eqb (lower s) (lower (u "Not Working"))) eqn:Hnw.
  { rewrite loop_body_not_working
      by (unfold is_not_working; rewrite Hst; exact Hnw). done. }
  rewrite (loop_body_text_status city r s) by done.
  unfold passes_city. cbn [negb andb app].
  destruct (city_given city && truthy (Station.city (make_station_data r)));
    cbn [negb orb].
  - by destruct (Station.city (make_station_data r)).
  - by destruct (truthy _).
Qed.

(** What the iteration of a row adds is the row's record, or nothing. *)
Lemma emitted_cases (city : option text) (r : row) :
  emitted city r = []
  ∨ (emitted city r = [make_station_data r]
     ∧ truthy (Station.fuel_station (make_station_data r)) = true
     ∧ notna (Station.fuel_station (make_station_data r)) = true).
Proof.
  rewrite emitted_by_cells.
  destruct (notna _ && negb _ && passes_city _ _); cbn [andb]; [|by left].
  destruct (truthy (Station.fuel_station (make_station_data r))) eqn:Ht;
    [right | by left].
  split; [done|]. split; [done|].
  pose proof (fuel_station_truthy_notna r) as H. rewrite Ht in H.
  by destruct (notna _).
Qed.

(** A row that ends the scan adds nothing. *)
Lemma stop_emits_nothing (city : option text) (r : row) :
  goes_on city r = false → emitted city r = [].
Proof.
  unfold goes_on, emitted. intros Hstop.
  destruct (loop_body city r []) as [[[] l]|e] eqn:Hbody; [done| |done].
  destruct (station_status_shape r) as [Hst|[s Hst]].
  { by rewrite loop_body_no_status in Hbody. }
  destruct (text_eqb (lower s) (lower (u "Not Working"))) eqn:Hnw.
  - rewrite loop_body_not_working in Hbody
      by (unfold is_not_working; rewrite Hst; exact Hnw).
    by injection Hbody as <-.
  - rewrite (loop_body_text_status city r s) in Hbody by done.
    destruct (city_given city && _); [destruct (Station.city _)|]; done.
Qed.

(** The iteration of a row runs to its end exactly when its status is a
    text other than "Not Working" and the filter does not meet a truthy
    city that is no text. *)
Lemma goes_on_iff (city : option text) (r : row) :
  goes_on city r = true
  ↔ Station.station_status (make_station_data r) ≠ VNone
    ∧ is_not_working r = false
    ∧ (city_given city = true →
       truthy (Station.city (make_station_data r)) = true →
       ∃ c, Station.city (make_station_data r) = VStr c).
Proof.
  unfold goes_on. destruct (station_status_shape r) as [Hst|[s Hst]].
  { rewrite loop_body_no_status by done. split; [done|]. by intros [? _]. }
  unfold is_not_working. rewrite Hst. cbn [py_lower].
  destruct (text_eqb (lower s) (lower (u "Not Working"))) eqn:Hnw.
  { rewrite loop_body_not_working
      by (unfold is_not_working; rewrite Hst; exact Hnw).
    split; [done|]. by intros (_ & ? & _). }
  rewrite (loop_body_text_status city r s) by done.
  destruct (city_given city); cbn [andb]; [|done].
  destruct (truthy (Station.city (make_station_data r))); [|done].
  destruct (Station.city (make_station_data r)) as [| | | |c| |].
  all: split; [try done; eauto 10|].
  all: intros (_ & _ & H); try done.
  all: by destruct H as [c' ?].
Qed.

(** *** The loop *)

Lemma for_rows_drop (city : option text) (df : dataframe)
    (all_stations : list Station.t) :
  for_rows city (drop_columns df) all_stations = for_rows city df all_stations.
Proof.
  revert all_stations. induction df as [|r df IH]; intros acc; [done|].
  change (drop_columns (r :: df))
    with (foldr delete r dropped_columns :: drop_columns df).
  cbn [for_rows]. rewrite loop_body_drop.
  destruct (loop_body city r acc) as [[[] acc']|e]; auto.
Qed.

(** The scan of the rows of a data frame that was read. *)
Lemma try_block_ok (city : option text) (df : dataframe) :
  try_block (Ok df) city = (for_rows city df []).1.
Proof. unfold try_block. by rewrite for_rows_drop. Qed.

(** A prefix that ends the loop decides the result. *)
Lemma for_rows_app (city : option text) (pre post : dataframe)
    (all_stations : list Station.t) :
  for_rows city (pre ++ post) all_stations
  = if forallb (goes_on city) pre
    then for_rows city post (for_rows city pre all_stations).1
    else for_rows city pre all_stations.
Proof.
  revert all_stations. induction pre as [|r pre IH]; intros acc; [done|].
  cbn [app for_rows forallb]. unfold goes_on at 1.
  rewrite (loop_body_acc city r acc).
  destruct (loop_body city r []) as [[[] l]|e]; cbn [andb fst]; [|done..].
  apply IH.
Qed.

(** While the iterations run to their end, the output is the
    concatenation, in row order, of what each row adds. *)
Lemma for_rows_goes_on (city : option text) (rows : dataframe)
    (all_stations : list Station.t) :
  forallb (goes_on city) rows = true →
  for_rows city rows all_stations
  = (all_stations ++ concat (emitted city <$> rows), None).
Proof.
  revert all_stations.
  induction rows as [|r rows IH]; intros acc.
  { intros _. cbn. by rewrite app_nil_r. }
  cbn [for_rows forallb fmap list_fmap concat].
  unfold goes_on at 1, emitted at 1. rewrite (loop_body_acc city r acc).
  destruct (loop_body city r []) as [[[] l]|e]; cbn [andb]; [|done..].
  intros H. rewrite IH by done. by rewrite <- app_assoc.
Qed.

(** A row whose iteration does not run to its end cuts the scan. *)
Lemma for_rows_cut (city : option text) (pre post : dataframe) (r : row) :
  goes_on city r = false →
  (for_rows city (pre ++ r :: post) []).1 = (for_rows city pre []).1.
Proof.
  intros Hstop. pose proof (stop_emits_nothing city r Hstop) as Hnone.
  rewrite for_rows_app.
  destruct (forallb (goes_on city) pre); [|done].
  cbn [for_rows]. rewrite loop_body_acc.
  unfold goes_on in Hstop. unfold emitted in Hnone.
  destruct (loop_body city r []) as [[[] l]|e]; [done| |done].
  subst l. cbn. by rewrite app_nil_r.
Qed.

(** When the iteration of a row runs to its end and adds nothing, the
    scan is the scan without the row. *)
Lemma for_rows_skip (city : option text) (pre post : dataframe) (r : row) :
  goes_on city r = true →
  emitted city r = [] →
  for_rows city (pre ++ r :: post) [] = for_rows city (pre ++ post) [].
Proof.
  intros Hon Hnone. rewrite !for_rows_app.
  destruct (forallb (goes_on city) pre); [|done].
  cbn [for_rows]. rewrite loop_body_acc.
  unfold goes_on in Hon. unfold emitted in Hnone.
  destruct (loop_body city r []) as [[[] l]|e]; [|done..].
  subst l. by rewrite app_nil_r.
Qed.

(** Every record of the output is the record of a row of the frame that
    passed the inclusion test of line 62. *)
Lemma for_rows_elem_of (city : option text) (rows : dataframe)
    (all_stations : list Station.t) (sd : Station.t) :
  sd ∈ (for_rows city rows all_stations).1 →
  sd ∈ all_stations
  ∨ ∃ r, r ∈ rows ∧ sd = make_station_data r ∧ emitted city r = [sd].
Proof.
  revert all_stations. induction rows as [|r rows IH]; intros acc; [by left|].
  cbn [for_rows]. rewrite loop_body_acc.
  pose proof (emitted_cases city r) as Hr. unfold emitted in Hr.
  destruct (loop_body city r []) as [[[] l]|e] eqn:Hbody; cbn [fst].
  - intros Hin. apply IH in Hin as [Hin|(r' & Hr' & -> & He)].
    + apply elem_of_app in Hin as [Hin|Hin]; [by left|right].
      exists r. split; [left|].
      destruct Hr as [->|(-> & _)]; [inversion Hin|].
      apply list_elem_of_singleton in Hin as ->.
      split; [done|]. unfold emitted. by rewrite Hbody.
    + right. exists r'. split; [by right|done].
  - intros Hin. apply elem_of_app in Hin as [Hin|Hin]; [by left|right].
    exists r. split; [left|].
    destruct Hr as [->|(-> & _)]; [inversion Hin|].
    apply list_elem_of_singleton in Hin as ->.
    split; [done|]. unfold emitted. by rewrite Hbody.
  - by left.
Qed.

(** The scan as a concatenation over the rows that run. *)
Lemma for_rows_closed_form (city : option text) (df : dataframe)
    (all_stations : list Station.t) :
  (for_rows city df all_stations).1
  = all_stations ++ concat (emitted city <$> rows_run city df)
  ∧ try_block (Ok df) city = concat (emitted city <$> rows_run city df).
Proof.
  assert (∀ acc, (for_rows city df acc).1
                 = acc ++ concat (emitted city <$> rows_run city df)) as H.
  { induction df as [|r df IH]; intros acc.
    { cbn. by rewrite app_nil_r. }
    cbn [for_rows rows_run].
    pose proof (stop_emits_nothing city r) as Hstop.
    unfold goes_on in *. rewrite (loop_body_acc city r acc).
    destruct (loop_body city r []) as [[[] l]|e] eqn:Hbody; cbn [fst].
    - rewrite IH. cbn [fmap list_fmap concat].
      assert (emitted city r = l) as ->
        by (unfold emitted; by rewrite Hbody).
      by rewrite <- app_assoc.
    - unfold emitted in Hstop. rewrite Hbody in Hstop.
      by rewrite Hstop.
    - cbn. by rewrite app_nil_r. }
  split; [apply H|]. by rewrite try_block_ok, H.
Qed.

(** Without a filter city the iteration runs to its end whenever it does
    with one, and a row adds at least what it adds under a filter. *)
Lemma goes_on_without_filter (city : option text) (r : row) :
  goes_on city r = true → goes_on None r = true.
Proof.
  rewrite !goes_on_iff. intros (H1 & H2 & _). by repeat split.
Qed.

Lemma emitted_without_filter (city : option text) (r : row) :
  emitted city r `sublist_of` emitted None r.
Proof.
  rewrite !emitted_by_cells.
  destruct (notna _ && negb _); cbn [andb]; [|done].
  destruct (truthy (Station.fuel_station _));
    destruct (passes_city city _); cbn [andb passes_city city_given negb orb];
    try done. apply sublist_nil_l.
Qed.

(** Where the loop raises. *)
Lemma for_rows_raise (city : option text) (df : dataframe)
    (all_stations : list Station.t) (e : exn) :
  (for_rows city df all_stations).2 = Some e →
  ∃ pre r post,
    df = pre ++ r :: post
    ∧ forallb (goes_on city) pre = true
    ∧ (∀ acc, loop_body city r acc = Raise e)
    ∧ (for_rows city df all_stations).1
      = all_stations ++ concat (emitted city <$> pre).
Proof.
  revert all_stations. induction df as [|r df IH]; intros acc; [done|].
  cbn [for_rows]. rewrite (loop_body_acc city r acc).
  destruct (loop_body city r []) as [[[] l]|e'] eqn:Hbody; cbn [fst snd].
  - intros H. destruct (IH _ H) as (pre & r' & post & -> & Hpre & Hr' & Heq).
    exists (r :: pre), r', post. split; [done|].
    split; [cbn [forallb]; unfold goes_on at 1; by rewrite Hbody|].
    split; [done|]. rewrite Heq. cbn [fmap list_fmap concat].
    unfold emitted at 2. rewrite Hbody. by rewrite <- app_assoc.
  - done.
  - intros [= ->]. exists [], r, df. split; [done|]. split; [done|].
    split; [|cbn; by rewrite app_nil_r].
    intros acc'. rewrite loop_body_acc. by rewrite Hbody.
Qed.

(** ** The claims *)

(** C1. The scan halts for good at a row whose normalized
    [station_status] equals "Not Working" case-insensitively (in
    particular at the first such row): the iteration of that row leaves
    the loop by [break] with nothing appended, so the row is not emitted;
    the result for [pre ++ nw :: post] is the result for [pre] alone,
    whatever the rows [post] after it are; and, when the iterations of the
    rows before it run to their end, the output is exactly what those rows
    add, in row order. *)
Theorem not_working_halts_scan (city : option text) (pre post : dataframe)
    (nw : row) :
  is_not_working nw = true →
  (∀ all_stations, loop_body city nw all_stations = Ok (Break, all_stations))
  ∧ for_rows city (pre ++ nw :: post) [] = for_rows city pre []
  ∧ try_block (Ok (pre ++ nw :: post)) city = try_block (Ok pre) city
  ∧ (forallb (goes_on city) pre = true →
     try_block (Ok (pre ++ nw :: post)) city = concat (emitted city <$> pre)).
Proof.
  intros Hnw.
  assert (for_rows city (pre ++ nw :: post) [] = for_rows city pre []) as Heq.
  { rewrite for_rows_app.
    destruct (forallb (goes_on city) pre) eqn:Hpre; [|done].
    cbn [for_rows]. rewrite loop_body_not_working by done.
    by rewrite (for_rows_goes_on city pre []). }
  split; [intros acc; by apply loop_body_not_working|].
  split; [done|].
  split; [by rewrite !try_block_ok, Heq|].
  intros Hpre. rewrite try_block_ok, Heq.
  by rewrite (for_rows_goes_on city pre []).
Qed.

Lemma not_working_halts_scan_witness :
  try_block (Ok halt_rows) None
  = [make_station_data (sample_row "S1" "Working" "Riyadh");
     make_station_data (sample_row "S2" "Working" "Riyadh")].
Proof.
  pose proof (not_working_halts_scan None
    [sample_row "S1" "Working" "Riyadh"; sample_row "S2" "Working" "Riyadh"]
    [sample_row "S4" "Working" "Riyadh"]
    (sample_row "S3" "Not Working" "Riyadh")) as H.
  destruct H as (_ & _ & _ & H); [vm_compute; reflexivity|].
  etransitivity; [apply H; vm_compute; reflexivity|].
  vm_compute. reflexivity.
Defined.

(** C2, as the code has it. Every exception raised in the [try] block is
    caught and lines 65-68 return [all_stations] as it stands: the empty
    list when [pd.read_excel] raises; when the iteration of a row raises,
    the records appended for the rows before that row, which need not be
    none. *)
Theorem try_block_keeps_appended (city : option text) :
  (∀ e, try_block (Raise e) city = [])
  ∧ (∀ df e,
       (for_rows city df []).2 = Some e →
       ∃ pre r post,
         df = pre ++ r :: post
         ∧ forallb (goes_on city) pre = true
         ∧ (∀ all_stations, loop_body city r all_stations = Raise e)
         ∧ try_block (Ok df) city = concat (emitted city <$> pre)).
Proof.
  split; [done|]. intros df e He.
  destruct (for_rows_raise city df [] e He)
    as (pre & r & post & -> & Hpre & Hr & Heq).
  exists pre, r, post. repeat split; try done.
  by rewrite try_block_ok, Heq.
Qed.

Lemma try_block_keeps_appended_witness :
  ∃ pre r post,
    [station_A; station_no_status; station_C] = pre ++ r :: post
    ∧ forallb (goes_on None) pre = true
    ∧ (∀ all_stations, loop_body None r all_stations = Raise AttributeError)
    ∧ try_block (Ok [station_A; station_no_status; station_C]) None
      = concat (emitted None <$> pre).
Proof.
  apply (proj2 (try_block_keeps_appended None)
           [station_A; station_no_status; station_C] AttributeError).
  vm_compute. reflexivity.
Defined.

(** C2, as stated, fails: the second of three rows has no status, its
    iteration raises [AttributeError] inside the [try] block, and the
    result is the record of the first row, not the empty list. *)
Lemma scan_error_not_empty_counterexample :
  for_rows None [station_A; station_no_status; station_C] []
  = ([make_station_data station_A], Some AttributeError)
  ∧ try_block (Ok [station_A; station_no_status; station_C]) None
    = [make_station_data station_A]
  ∧ try_block (Ok [station_A; station_no_status; station_C]) None ≠ [].
Proof. split; [by vm_compute|]. split; [by vm_compute|]. by vm_compute. Qed.

(** C3, as the code has it. The filter of lines 57-59 is guarded by the
    row's city: for a row whose city resolves to missing the filter is not
    applied, and the iteration does under any filter city what it does
    with no filter. Such a row is therefore kept whenever it has a station
    name and the status rule does not stop the scan at it. *)
Theorem missing_city_bypasses_filter (city : option text) (r : row)
    (all_stations : list Station.t) :
  _get_column_value r (Spec.aliases Spec.City) = VNone →
  loop_body city r all_stations = loop_body None r all_stations
  ∧ (Station.station_status (make_station_data r) ≠ VNone →
     is_not_working r = false →
     truthy (Station.fuel_station (make_station_data r)) = true →
     loop_body city r all_stations
     = Ok (Next, all_stations ++ [make_station_data r])).
Proof.
  intros Hmiss.
  assert (Station.city (make_station_data r) = VNone) as Hcity
    by (cbn [Spec.aliases] in Hmiss; exact Hmiss).
  assert (loop_body city r all_stations = loop_body None r all_stations) as Heq.
  { unfold loop_body. unfold_result. rewrite Hcity.
    cbn [truthy city_given]. by rewrite andb_false_r. }
  split; [done|]. intros Hst Hnw Hname. rewrite Heq.
  destruct (station_status_shape r) as [H|[s H]]; [done|].
  unfold is_not_working in Hnw. rewrite H in Hnw. cbn [py_lower] in Hnw.
  rewrite (loop_body_text_status None r s) by done.
  cbn [city_given andb]. by rewrite Hname.
Qed.

Lemma missing_city_bypasses_filter_witness :
  loop_body (Some (u "Riyadh")) station_no_city []
  = Ok (Next, [make_station_data station_no_city]).
Proof.
  apply (proj2 (missing_city_bypasses_filter (Some (u "Riyadh"))
                  station_no_city [] ltac:(vm_compute; reflexivity)));
    [vm_compute; discriminate | vm_compute; reflexivity
    | vm_compute; reflexivity].
Defined.

(** C3, as stated, fails: under the filter city "Riyadh", the row with
    station name "A", status "Working" and no city cell is in the output,
    and the city of its record is missing. *)
Lemma missing_city_kept_counterexample :
  Station.city (make_station_data station_no_city) = VNone
  ∧ make_station_data station_no_city
    ∈ try_block (Ok [station_no_city]) (Some (u "Riyadh")).
Proof.
  split; [vm_compute; reflexivity|].
  replace (try_block (Ok [station_no_city]) (Some (u "Riyadh")))
    with [make_station_data station_no_city] by (vm_compute; reflexivity).
  by apply list_elem_of_singleton.
Qed.

(** C4, as the code has it. A text whose lower-cased, stripped form is in
    neither word set is returned lower-cased and stripped: the [str]
    branch rebinds the parameter before the final [str(value)]. *)
Theorem normalize_status_passthrough (s : text) :
  strip (lower s) ∉ Spec.working_words →
  strip (lower s) ∉ Spec.not_working_words →
  _normalize_status (VStr s) = VStr (strip (lower s)).
Proof.
  intros Hw Hn. rewrite normalize_status_text.
  apply in_list_not_elem_of in Hw, Hn. by rewrite Hw, Hn.
Qed.

Lemma normalize_status_passthrough_witness :
  _normalize_status (VStr (u " Pending Review ")) = VStr (u "pending review").
Proof.
  apply (normalize_status_passthrough (u " Pending Review "));
    apply in_list_not_elem_of; vm_compute; reflexivity.
Defined.

(** C4, as stated, fails: "Pending Review" is in neither word set when
    compared case-insensitively, and it is not returned unchanged. *)
Lemma normalize_status_passthrough_counterexample :
  (lower (u "Pending Review") ∉ Spec.working_words)
  ∧ (lower (u "Pending Review") ∉ Spec.not_working_words)
  ∧ _normalize_status (VStr (u "Pending Review")) = VStr (u "pending review")
  ∧ _normalize_status (VStr (u "Pending Review"))
    ≠ VStr (u "Pending Review").
Proof.
  split; [apply in_list_not_elem_of; vm_compute; reflexivity|].
  split; [apply in_list_not_elem_of; vm_compute; reflexivity|].
  split; [vm_compute; reflexivity | vm_compute; discriminate].
Qed.

(** C5. A row whose [station_status] resolves to missing makes the halt
    test call [.lower()] on [None]: the iteration raises
    [AttributeError], the blanket handler ends the scan, and the query
    returns the records accumulated from the earlier rows only. *)
Theorem missing_status_aborts_scan (city : option text) (pre post : dataframe)
    (r : row) :
  _get_column_value r (Spec.aliases Spec.StationStatus) = VNone →
  (∀ all_stations, loop_body city r all_stations = Raise AttributeError)
  ∧ (∀ all_stations,
       for_rows city (r :: post) all_stations = (all_stations, Some AttributeError))
  ∧ try_block (Ok (pre ++ r :: post)) city = try_block (Ok pre) city.
Proof.
  intros Hmiss.
  assert (Station.station_status (make_station_data r) = VNone) as Hst.
  { cbn [make_station_data Station.station_status].
    cbn [Spec.aliases] in Hmiss. by rewrite Hmiss. }
  split; [intros acc; by apply loop_body_no_status|].
  split.
  { intros acc. cbn [for_rows]. by rewrite loop_body_no_status. }
  rewrite !try_block_ok. apply for_rows_cut.
  unfold goes_on. by rewrite loop_body_no_status.
Qed.

Lemma missing_status_aborts_scan_witness :
  try_block (Ok [station_A; station_no_status; station_C]) None
  = try_block (Ok [station_A]) None.
Proof.
  apply (missing_status_aborts_scan None [station_A] [station_C]
           station_no_status).
  vm_compute. reflexivity.
Defined.

(** C6, as the code has it. Every record of the output has a station
    name that is present and not missing. A row whose station name does
    not resolve adds no record, whatever its other cells hold, and its
    iteration never leaves the loop on account of the name. The missing
    name makes a skip of one row: the scan goes on with the next row
    exactly when the rules tried before the name let the row through,
    that is when the row has a status, the status is not "Not Working",
    and the filter does not meet a truthy city that is no text; the
    result is then that of the frame without the row. Otherwise the scan
    ends at the row, as it does for a row with a name. *)
Theorem fuel_station_required (city : option text) :
  (∀ read sd, sd ∈ try_block read city →
     Station.fuel_station sd ≠ VNone
     ∧ truthy (Station.fuel_station sd) = true
     ∧ isna (Station.fuel_station sd) = false)
  ∧ (∀ r, _get_column_value r (Spec.aliases Spec.FuelStation) = VNone →
       emitted city r = []
       ∧ (∀ all_stations f all_stations',
            loop_body city r all_stations = Ok (f, all_stations') →
            all_stations' = all_stations
            ∧ (f = Break → is_not_working r = true))
       ∧ (∀ all_stations,
            loop_body city r all_stations = Ok (Next, all_stations)
            ↔ Station.station_status (make_station_data r) ≠ VNone
              ∧ is_not_working r = false
              ∧ (city_given city = true →
                 truthy (Station.city (make_station_data r)) = true →
                 ∃ c, Station.city (make_station_data r) = VStr c))
       ∧ (Station.station_status (make_station_data r) ≠ VNone →
          is_not_working r = false →
          (city_given city = true →
           truthy (Station.city (make_station_data r)) = true →
           ∃ c, Station.city (make_station_data r) = VStr c) →
          ∀ pre post,
            try_block (Ok (pre ++ r :: post)) city
            = try_block (Ok (pre ++ post)) city)).
Proof.
  split.
  - intros read sd Hin. destruct read as [df|e]; [|inversion Hin].
    rewrite try_block_ok in Hin.
    apply for_rows_elem_of in Hin as [Hin|(r & _ & -> & He)]; [inversion Hin|].
    destruct (emitted_cases city r) as [Hr|(_ & Ht & Hn)]; [congruence|].
    unfold notna in Hn. apply negb_true_iff in Hn.
    split; [|done]. intros H. by rewrite H in Ht.
  - intros r Hname.
    assert (Station.fuel_station (make_station_data r) = VNone) as Hfs
      by (cbn [Spec.aliases] in Hname; exact Hname).
    assert (emitted city r = []) as Hnone.
    { destruct (emitted_cases city r) as [Hr|(_ & Ht & _)]; [done|].
      by rewrite Hfs in Ht. }
    assert (∀ acc f acc', loop_body city r acc = Ok (f, acc') →
              acc' = acc ∧ (f = Break ↔ goes_on city r = false)) as Hbody.
    { intros acc f acc' H. rewrite loop_body_acc in H.
      unfold emitted in Hnone. unfold goes_on.
      destruct (loop_body city r []) as [[f0 l]|e]; [|done].
      subst l. injection H as -> <-. rewrite app_nil_r.
      split; [done|]. by destruct f. }
    split; [done|]. split; [|split].
    + intros acc f acc' H. destruct (Hbody acc f acc' H) as [-> Hf].
      split; [done|]. intros ->.
      destruct (is_not_working r) eqn:Hnw; [done|].
      rewrite loop_body_acc in H.
      destruct (station_status_shape r) as [Hst|[s Hst]].
      { by rewrite loop_body_no_status in H. }
      unfold is_not_working in Hnw. rewrite Hst in Hnw. cbn [py_lower] in Hnw.
      rewrite (loop_body_text_status city r s) in H by done.
      destruct (city_given city && _); [destruct (Station.city _)|]; done.
    + intros acc. rewrite <- goes_on_iff. split.
      * intros H. destruct (Hbody acc _ _ H) as [_ Hf].
        destruct (goes_on city r); [done|].
        by pose proof (proj2 Hf eq_refl).
      * intros Hon. rewrite loop_body_acc. unfold goes_on in Hon.
        unfold emitted in Hnone.
        destruct (loop_body city r []) as [[[] l]|e]; [|done..].
        subst l. by rewrite app_nil_r.
    + intros Hst Hnw Hcity pre post. rewrite !try_block_ok.
      rewrite for_rows_skip; [done| |done].
      by apply goes_on_iff.
Qed.

Lemma fuel_station_required_witness :
  try_block (Ok [station_A; station_no_name; station_C]) None
  = try_block (Ok [station_A; station_C]) None.
Proof.
  destruct (fuel_station_required None) as [_ H].
  destruct (H station_no_name) as (_ & _ & _ & H');
    [vm_compute; reflexivity|].
  apply (H' ltac:(vm_compute; discriminate) ltac:(vm_compute; reflexivity)
            ltac:(discriminate) [station_A] [station_C]).
Defined.

(** C6, as stated, fails: the blank row between two stations has no
    station name, and the scan does not continue with the next row; the
    query returns one record where the frame without the blank row gives
    two. *)
Lemma blank_row_ends_scan_counterexample :
  _get_column_value station_blank (Spec.aliases Spec.FuelStation) = VNone
  ∧ try_block (Ok [station_A; station_blank; station_C]) None
    = [make_station_data station_A]
  ∧ try_block (Ok [station_A; station_C]) None
    = [make_station_data station_A; make_station_data station_C].
Proof. split; [by vm_compute|]. split; by vm_compute. Qed.

(** C7, on the code: [records_path] is the [str] "data", so the [/] of
    line 25 raises [TypeError] before the existence test of line 26 is
    reached. Every call ends so, also when the file is absent, where
    [FileNotFoundError] is expected. *)
Theorem read_fuel_station_records_type_error (fs : filesystem)
    (city : option text) :
  read_fuel_station_records fs city = Raise TypeError
  ∧ read_fuel_station_records fs city ≠ Raise FileNotFoundError.
Proof. split; [reflexivity | discriminate]. Qed.

(** C8, as the code has it. [_normalize_boolean]: a missing value
    ([None], NaN, NaT) gives [None]; a [bool] is returned as it is; a
    text is lower-cased and stripped, then a member of the true words
    gives the available token, a member of the false words the
    not-available token, any other text [None]; a Python [int] or a
    [float] gives its truthiness as a plain [bool] (zero false, anything
    else true), which is none of the two tokens; any other object, the
    NumPy integer of a sheet of integers included, gives [None]. *)
Theorem normalize_boolean_cases :
  (∀ v, isna v = true → _normalize_boolean v = VNone)
  ∧ (∀ b, _normalize_boolean (VBool b) = VBool b)
  ∧ (∀ s, strip (lower s) ∈ Spec.true_words →
          _normalize_boolean (VStr s) = VStr available)
  ∧ (∀ s, strip (lower s) ∈ Spec.false_words →
          _normalize_boolean (VStr s) = VStr not_available)
  ∧ (∀ s, strip (lower s) ∉ Spec.true_words →
          strip (lower s) ∉ Spec.false_words →
          _normalize_boolean (VStr s) = VNone)
  ∧ (∀ z, _normalize_boolean (VInt z) = VBool (negb (z =? 0)%Z))
  ∧ (∀ f, f ≠ FNaN →
          _normalize_boolean (VFloat f)
          = VBool (match f with FZero _ => false | _ => true end))
  ∧ (∀ truth str, _normalize_boolean (VObj truth str) = VNone)
  ∧ (∀ b, VBool b ≠ VStr available ∧ VBool b ≠ VStr not_available).
Proof.
  unfold available, not_available.
  split; [intros v Hv; unfold _normalize_boolean; by rewrite Hv|].
  split; [done|].
  split.
  { intros s Hs. apply in_list_elem_of in Hs.
    unfold _normalize_boolean. cbn [isna].
    unfold Spec.true_words in Hs. by rewrite Hs. }
  split.
  { intros s Hs. unfold _normalize_boolean. cbn [isna].
    assert (in_list (strip (lower s)) Spec.true_words = false) as Ht.
    { unfold Spec.false_words in Hs. cbn [fmap list_fmap] in Hs.
      repeat (apply elem_of_cons in Hs as [->|Hs]; [by vm_compute|]).
      inversion Hs. }
    apply in_list_elem_of in Hs.
    unfold Spec.true_words in Ht. unfold Spec.false_words in Hs.
    by rewrite Ht, Hs. }
  split.
  { intros s Ht Hf. apply in_list_not_elem_of in Ht, Hf.
    unfold _normalize_boolean. cbn [isna].
    unfold Spec.true_words in Ht. unfold Spec.false_words in Hf.
    by rewrite Ht, Hf. }
  split; [done|].
  split; [by intros [| |]|].
  split; [done|]. done.
Qed.

Lemma normalize_boolean_cases_witness :
  _normalize_boolean VNone = VNone
  ∧ _normalize_boolean (VStr (u " Yes ")) = VStr available
  ∧ _normalize_boolean (VStr (u "لا")) = VStr not_available
  ∧ _normalize_boolean (VStr (u "maybe")) = VNone
  ∧ _normalize_boolean (VFloat (FZero false)) = VBool false.
Proof.
  destruct normalize_boolean_cases
    as (Hna & _ & Ht & Hf & Ho & _ & Hfl & _).
  split; [apply Hna; reflexivity|].
  split; [apply Ht, in_list_elem_of; vm_compute; reflexivity|].
  split; [apply Hf, in_list_elem_of; vm_compute; reflexivity|].
  split; [apply Ho; apply in_list_not_elem_of; vm_compute; reflexivity|].
  apply (Hfl (FZero false)). discriminate.
Defined.

(** C8, as stated, fails: the zero of a sheet whose columns are all
    integers is an [np.int64], a numeric value that is no [int] for
    [isinstance]; it is not given the plain [False] but [None]. *)
Lemma normalize_boolean_numpy_counterexample :
  _normalize_boolean (VObj false (u "0")) = VNone
  ∧ _normalize_boolean (VObj false (u "0")) ≠ VBool false.
Proof. split; [reflexivity | discriminate]. Qed.

(** C9, as the code has it. Take a filter city [f] and a row that is
    otherwise emitted (its status is a text other than "Not Working" and
    it has a station name). When the city of the row is a non-empty
    text [c], the row is kept if and only if the lower-cased [f] is a
    substring of the lower-cased [c], and the scan goes on either way.
    A city that is present and falsy (the number zero, [False]) is not
    compared: the row is kept whatever [f] is. A city that is truthy and
    no text (another number) is not compared either: under a non-empty
    [f] the comparison raises [AttributeError]. *)
Theorem city_filter_substring (f : text) (r : row) :
  Station.station_status (make_station_data r) ≠ VNone →
  is_not_working r = false →
  truthy (Station.fuel_station (make_station_data r)) = true →
  (∀ c, Station.city (make_station_data r) = VStr c → c ≠ [] →
     (∀ all_stations,
        loop_body (Some f) r all_stations
        = Ok (Next, if contains (lower f) (lower c)
                    then all_stations ++ [make_station_data r]
                    else all_stations))
     ∧ (make_station_data r ∈ emitted (Some f) r
        ↔ substring (lower f) (lower c)))
  ∧ (truthy (Station.city (make_station_data r)) = false →
     ∀ all_stations,
       loop_body (Some f) r all_stations
       = Ok (Next, all_stations ++ [make_station_data r]))
  ∧ (truthy (Station.city (make_station_data r)) = true →
     (∀ c, Station.city (make_station_data r) ≠ VStr c) →
     f ≠ [] →
     ∀ all_stations, loop_body (Some f) r all_stations = Raise AttributeError).
Proof.
  intros Hst Hnw Hname.
  destruct (station_status_shape r) as [H|[s Hs]]; [done|].
  unfold is_not_working in Hnw. rewrite Hs in Hnw. cbn [py_lower] in Hnw.
  assert (∀ acc, loop_body (Some f) r acc = _) as Hbody
    by (intros acc; exact (loop_body_text_status (Some f) r s acc Hs Hnw)).
  rewrite Hname in Hbody. cbn [default] in Hbody.
  split; [|split].
  - intros c Hcity Hc. apply text_eqb_neq in Hc.
    assert (∀ acc, loop_body (Some f) r acc
       = Ok (Next, if contains (lower f) (lower c)
                   then acc ++ [make_station_data r] else acc)) as Hc'.
    { intros acc. rewrite Hbody, Hcity. cbn [truthy city_given].
      rewrite Hc. cbn [negb]. rewrite andb_true_r.
      destruct (text_eqb f []) eqn:Hf; cbn [negb].
      - apply text_eqb_eq in Hf as ->. by rewrite contains_empty.
      - by rewrite andb_true_r. }
    split; [done|]. rewrite <- contains_substring.
    unfold emitted. rewrite Hc'.
    destruct (contains (lower f) (lower c)); cbn [app].
    + split; [done|]. intros _. by apply list_elem_of_singleton.
    + split; [intros H; inversion H | done].
  - intros Hfalsy acc. rewrite Hbody, Hfalsy. by rewrite andb_false_r.
  - intros Htruthy Hnotext Hf acc. apply text_eqb_neq in Hf.
    rewrite Hbody, Htruthy. cbn [city_given]. rewrite Hf. cbn [negb andb].
    destruct (Station.city (make_station_data r)) as [| | | |c| |]; try done.
    by destruct (Hnotext c).
Qed.

Lemma city_filter_substring_witness :
  emitted (Some (u "riyadh")) (sample_row "A" "Working" "Riyadh - Al Olaya")
  = [make_station_data (sample_row "A" "Working" "Riyadh - Al Olaya")]
  ∧ emitted (Some (u "riyadh")) (sample_row "C" "Working" "Jeddah") = []
  ∧ loop_body (Some (u "riyadh")) station_zero_city []
    = Ok (Next, [make_station_data station_zero_city])
  ∧ loop_body (Some (u "riyadh")) station_numeric_city []
    = Raise AttributeError.
Proof.
  split; [|split; [|split]].
  - unfold emitted.
    rewrite (proj1 (proj1 (city_filter_substring (u "riyadh")
               (sample_row "A" "Working" "Riyadh - Al Olaya")
               ltac:(vm_compute; discriminate) ltac:(vm_compute; reflexivity)
               ltac:(vm_compute; reflexivity))
               (u "Riyadh - Al Olaya") ltac:(vm_compute; reflexivity)
               ltac:(vm_compute; discriminate)) []).
    vm_compute. reflexivity.
  - unfold emitted.
    rewrite (proj1 (proj1 (city_filter_substring (u "riyadh")
               (sample_row "C" "Working" "Jeddah")
               ltac:(vm_compute; discriminate) ltac:(vm_compute; reflexivity)
               ltac:(vm_compute; reflexivity))
               (u "Jeddah") ltac:(vm_compute; reflexivity)
               ltac:(vm_compute; discriminate)) []).
    vm_compute. reflexivity.
  - apply (proj1 (proj2 (city_filter_substring (u "riyadh") station_zero_city
               ltac:(vm_compute; discriminate) ltac:(vm_compute; reflexivity)
               ltac:(vm_compute; reflexivity)))).
    vm_compute. reflexivity.
  - apply (proj2 (proj2 (city_filter_substring (u "riyadh")
               station_numeric_city
               ltac:(vm_compute; discriminate) ltac:(vm_compute; reflexivity)
               ltac:(vm_compute; reflexivity)))).
    + vm_compute. reflexivity.
    + intros c. vm_compute. discriminate.
    + vm_compute. discriminate.
Defined.

(** C9, as stated, fails: the city of the row is present (the number
    zero), the filter city "riyadh" is no substring of it, and the record
    of the row is kept. *)
Lemma zero_city_kept_counterexample :
  Station.city (make_station_data station_zero_city) = VInt 0
  ∧ contains (lower (u "riyadh")) (lower (py_str (VInt 0))) = false
  ∧ try_block (Ok [station_zero_city]) (Some (u "riyadh"))
    = [make_station_data station_zero_city].
Proof. split; [by vm_compute|]. split; by vm_compute. Qed.

(** C10. [_get_column_value] returns the value of the first alias, in the
    order of the list, that is a column of the row with a value that is
    not missing, and [None] when there is no such alias; and the record
    of a row is built with exactly the documented alias lists (the
    trailing-space variant of the district included). *)
Theorem get_column_value_first_present (r : row) :
  (∀ pre col post v,
     (∀ c, c ∈ pre → ∀ v', r !! c = Some v' → isna v' = true) →
     r !! col = Some v → isna v = false →
     _get_column_value r (pre ++ col :: post) = v)
  ∧ (∀ cols,
       (∀ c, c ∈ cols → ∀ v', r !! c = Some v' → isna v' = true) →
       _get_column_value r cols = VNone)
  ∧ make_station_data r
    = {| Station.region := _get_column_value r (Spec.aliases Spec.Region);
         Station.city := _get_column_value r (Spec.aliases Spec.City);
         Station.fuel_station :=
           _get_column_value r (Spec.aliases Spec.FuelStation);
         Station.station_status :=
           _normalize_status
             (_get_column_value r (Spec.aliases Spec.StationStatus));
         Station.rfid :=
           _normalize_boolean (_get_column_value r (Spec.aliases Spec.Rfid));
         Station.smart_cars :=
           _normalize_boolean
             (_get_column_value r (Spec.aliases Spec.SmartCars));
         Station.diesel :=
           _normalize_boolean (_get_column_value r (Spec.aliases Spec.Diesel));
         Station.district :=
           _get_column_value r (Spec.aliases Spec.District) |}.
Proof.
  assert (∀ cols rest,
       (∀ c, c ∈ cols → ∀ v', r !! c = Some v' → isna v' = true) →
       _get_column_value r (cols ++ rest) = _get_column_value r rest) as Hskip.
  { induction cols as [|c cols IH]; intros rest Hall; [done|].
    cbn [app _get_column_value].
    assert (_get_column_value r (cols ++ rest) = _get_column_value r rest)
      as -> by (apply IH; intros c' Hc'; apply Hall; by right).
    destruct (r !! c) as [v'|] eqn:Hc; [|done].
    unfold notna. by rewrite (Hall c ltac:(left) v' Hc). }
  split.
  { intros pre col post v Hpre Hcol Hv. rewrite Hskip by done.
    cbn [_get_column_value]. rewrite Hcol. unfold notna. by rewrite Hv. }
  split; [|reflexivity].
  intros cols Hall. rewrite <- (app_nil_r cols). by rewrite Hskip.
Qed.

Lemma get_column_value_first_present_witness :
  _get_column_value
    (<["City" := VFloat FNaN]> (<["city" := VStr (u "Jeddah")]> ∅))
    (Spec.aliases Spec.City)
  = VStr (u "Jeddah").
Proof.
  apply (proj1 (get_column_value_first_present
           (<["City" := VFloat FNaN]> (<["city" := VStr (u "Jeddah")]> ∅)))
           ["City"; "المدينة"] "city" [] (VStr (u "Jeddah"))).
  - intros c Hc v' Hv'.
    apply elem_of_cons in Hc as [->|Hc].
    { vm_compute in Hv'. by injection Hv' as <-. }
    apply elem_of_cons in Hc as [->|Hc]; [by vm_compute in Hv'|].
    inversion Hc.
  - vm_compute. reflexivity.
  - reflexivity.
Defined.

(** ** Further properties of the helpers *)

(** X1. [_get_column_value] invents nothing: its result is [None], or a
    value that is not missing and that the row holds under one of the
    given column names. *)
Theorem get_column_value_sound (r : row) (cols : list string) :
  _get_column_value r cols = VNone
  ∨ ∃ c, c ∈ cols
         ∧ r !! c = Some (_get_column_value r cols)
         ∧ isna (_get_column_value r cols) = false.
Proof.
  induction cols as [|c cols IH]; cbn [_get_column_value]; [by left|].
  destruct (r !! c) as [v|] eqn:Hc.
  - destruct (notna v) eqn:Hv.
    + right. exists c. split; [by left|]. split; [done|].
      unfold notna in Hv. by apply negb_true_iff in Hv.
    + destruct IH as [IH|(c' & Hin & Hc' & Hna)]; [by left|right].
      exists c'. split; [by right|done].
  - destruct IH as [IH|(c' & Hin & Hc' & Hna)]; [by left|right].
    exists c'. split; [by right|done].
Qed.

(** X2. A column whose name is none of the given ones does not matter:
    setting or deleting it leaves the result of [_get_column_value]
    unchanged. *)
Theorem get_column_value_other_column (r : row) (c : string) (v : pyval)
    (cols : list string) :
  c ∉ cols →
  _get_column_value (<[c := v]> r) cols = _get_column_value r cols
  ∧ _get_column_value (delete c r) cols = _get_column_value r cols.
Proof.
  intros Hc. split; [|by apply get_column_value_delete].
  induction cols as [|c' cols IH]; cbn [_get_column_value]; [done|].
  apply not_elem_of_cons in Hc as [Hne Hc].
  rewrite lookup_insert_ne by done. by rewrite IH.
Qed.

Lemma get_column_value_other_column_witness :
  _get_column_value (<["SN" := VInt 1]> station_A) ["City"; "المدينة"; "city"]
  = _get_column_value station_A ["City"; "المدينة"; "city"].
Proof.
  apply (get_column_value_other_column station_A "SN" (VInt 1)).
  by_evaluation.
Defined.

(** X3. A cell that holds a missing value ([None] or NaN) counts as an
    absent column: the result is the same as with the column deleted. *)
Theorem get_column_value_missing_as_absent (r : row) (c : string) (v : pyval)
    (cols : list string) :
  isna v = true →
  _get_column_value (<[c := v]> r) cols = _get_column_value (delete c r) cols.
Proof.
  intros Hv. induction cols as [|c' cols IH]; cbn [_get_column_value]; [done|].
  rewrite IH. destruct (decide (c = c')) as [->|Hne].
  - rewrite lookup_insert_eq, lookup_delete_eq. unfold notna. by rewrite Hv.
  - by rewrite lookup_insert_ne, lookup_delete_ne by done.
Qed.

Lemma get_column_value_missing_as_absent_witness :
  _get_column_value (<["City" := VFloat FNaN]> station_A)
    ["City"; "المدينة"; "city"]
  = _get_column_value (delete "City" station_A) ["City"; "المدينة"; "city"].
Proof.
  apply (get_column_value_missing_as_absent station_A "City" (VFloat FNaN)).
  reflexivity.
Defined.


(** X5. [_normalize_status] returns [None] exactly for a missing value;
    for any other value it returns a text, and for a value that is not a
    text this is [str(value)]. *)
Theorem normalize_status_none_iff_missing (v : pyval) :
  (_normalize_status v = VNone ↔ isna v = true)
  ∧ (isna v = false → ∃ s, _normalize_status v = VStr s)
  ∧ (isna v = false → (∀ s, v ≠ VStr s) →
     _normalize_status v = VStr (py_str v)).
Proof.
  split; [apply normalize_status_missing|].
  split.
  - intros Hv. destruct (normalize_status_shape v) as [H|H]; [|done].
    apply normalize_status_missing in H. congruence.
  - intros Hv Hs. unfold _normalize_status. rewrite Hv.
    destruct v as [| | | |s| |]; try done. by destruct (Hs s).
Qed.

Lemma normalize_status_none_iff_missing_witness :
  _normalize_status (VFloat (FOther (u "2.5"))) = VStr (u "2.5").
Proof.
  apply (proj2 (proj2 (normalize_status_none_iff_missing
                         (VFloat (FOther (u "2.5"))))));
    [reflexivity | discriminate].
Defined.

(** X6. For a text, [_normalize_status] gives "Working" exactly when the
    lower-cased, stripped text is one of the six working words, and
    "Not Working" exactly when it is one of the six not-working words. *)
Theorem normalize_status_words (s : text) :
  (_normalize_status (VStr s) = VStr (u "Working")
   ↔ strip (lower s) ∈ Spec.working_words)
  ∧ (_normalize_status (VStr s) = VStr (u "Not Working")
     ↔ strip (lower s) ∈ Spec.not_working_words).
Proof.
  rewrite normalize_status_text.
  pose proof (strip_lower_stable s) as Hstable.
  pose proof (working_not_not_working (strip (lower s))) as Hdisj.
  assert (strip (lower s) ≠ u "Working") as HW.
  { intros H. rewrite H in Hstable. by vm_compute in Hstable. }
  assert (strip (lower s) ≠ u "Not Working") as HN.
  { intros H. rewrite H in Hstable. by vm_compute in Hstable. }
  destruct (in_list (strip (lower s)) Spec.working_words) eqn:Hw.
  - apply in_list_elem_of in Hw. split; [done|].
    split; [intros [= H]; by vm_compute in H|].
    intros Hn. by destruct (Hdisj Hw).
  - apply in_list_not_elem_of in Hw.
    destruct (in_list (strip (lower s)) Spec.not_working_words) eqn:Hn.
    + apply in_list_elem_of in Hn. split; [|done].
      split; [intros [= H]; by vm_compute in H|]. intros H. by destruct Hw.
    + apply in_list_not_elem_of in Hn.
      split; (split; [|done]); intros [= H]; done.
Qed.

Lemma normalize_status_words_witness :
  _normalize_status (VStr (0xA0%N :: u " ACTIVE ")) = VStr (u "Working").
Proof.
  apply (proj1 (normalize_status_words (0xA0%N :: u " ACTIVE "))).
  apply in_list_elem_of. vm_compute. reflexivity.
Defined.

(** X7. On texts [_normalize_status] is idempotent: normalizing an
    already normalized status changes nothing. *)
Theorem normalize_status_idempotent (s : text) :
  _normalize_status (_normalize_status (VStr s)) = _normalize_status (VStr s).
Proof.
  rewrite (normalize_status_text s).
  destruct (in_list (strip (lower s)) Spec.working_words) eqn:Hw;
    [by vm_compute|].
  destruct (in_list (strip (lower s)) Spec.not_working_words) eqn:Hn;
    [by vm_compute|].
  rewrite normalize_status_text, strip_lower_fixed. by rewrite Hw, Hn.
Qed.

(** X8. For a row whose status cell resolves to a text, the halt test of
    line 53 holds exactly when the lower-cased, stripped text is one of
    the six not-working words; no other text stops the scan. *)
Theorem halt_iff_not_working_word (r : row) (s : text) :
  _get_column_value r (Spec.aliases Spec.StationStatus) = VStr s →
  (is_not_working r = true ↔ strip (lower s) ∈ Spec.not_working_words).
Proof.
  intros Hcell. unfold is_not_working.
  cbn [make_station_data Station.station_status].
  cbn [Spec.aliases] in Hcell. rewrite Hcell, normalize_status_text.
  pose proof (working_not_not_working (strip (lower s))) as Hdisj.
  destruct (in_list (strip (lower s)) Spec.working_words) eqn:Hw.
  - apply in_list_elem_of in Hw. split; [intros H; by vm_compute in H|].
    intros Hn. by destruct (Hdisj Hw).
  - destruct (in_list (strip (lower s)) Spec.not_working_words) eqn:Hn.
    + apply in_list_elem_of in Hn. split; [done|]. intros _. by vm_compute.
    + apply in_list_not_elem_of in Hn. cbn [py_lower].
      rewrite lower_strip_lower. split; [|done].
      intros H. apply text_eqb_eq in H. destruct Hn. rewrite H.
      apply in_list_elem_of. by vm_compute.
Qed.

Lemma halt_iff_not_working_word_witness :
  is_not_working station_B = true
  ↔ strip (lower (u "لا يعمل")) ∈ Spec.not_working_words.
Proof.
  apply (halt_iff_not_working_word station_B (u "لا يعمل")).
  vm_compute. reflexivity.
Defined.

(** X9. [_normalize_boolean] returns [None], a [bool] or one of the two
    tokens, never the text it was given otherwise; and it is idempotent:
    applied to its own result it returns that result. *)
Theorem normalize_boolean_range_idempotent (v : pyval) :
  (_normalize_boolean v = VNone
   ∨ (∃ b, _normalize_boolean v = VBool b)
   ∨ _normalize_boolean v = VStr available
   ∨ _normalize_boolean v = VStr not_available)
  ∧ _normalize_boolean (_normalize_boolean v) = _normalize_boolean v.
Proof.
  unfold available, not_available.
  assert (_normalize_boolean v = VNone
          ∨ (∃ b, _normalize_boolean v = VBool b)
          ∨ _normalize_boolean v = VStr (u "متوفر")
          ∨ _normalize_boolean v = VStr (u "غير متوفر")) as Hrange.
  { unfold _normalize_boolean. destruct (isna v); [by left|].
    destruct v as [|b|z|f|s|t s|]; [by left | right; left; eauto..| |by left
                                   |by left].
    destruct (in_list _ _); [by right; right; left|].
    destruct (in_list _ _); [by right; right; right | by left]. }
  split; [done|].
  destruct Hrange as [->|[[b ->]|[->| ->]]]; by vm_compute.
Qed.

(** ** Further properties of the scan *)

(** X10. The iteration of a row raises in two cases only, both with
    [AttributeError]: the status of the row is missing; or the status
    rule lets the row through, a filter city is given, and the city of
    the row is truthy and not a text (a non-zero number, [True]). *)
Theorem loop_body_raises_iff (city : option text) (r : row)
    (all_stations : list Station.t) (e : exn) :
  loop_body city r all_stations = Raise e
  ↔ e = AttributeError
    ∧ (Station.station_status (make_station_data r) = VNone
       ∨ ((∃ s, Station.station_status (make_station_data r) = VStr s)
          ∧ is_not_working r = false
          ∧ city_given city = true
          ∧ truthy (Station.city (make_station_data r)) = true
          ∧ ∀ c, Station.city (make_station_data r) ≠ VStr c)).
Proof. apply loop_body_raise_cases. Qed.

Lemma loop_body_raises_iff_witness :
  loop_body (Some (u "Riyadh")) station_numeric_city [] = Raise AttributeError.
Proof.
  apply (loop_body_raises_iff (Some (u "Riyadh")) station_numeric_city []).
  split; [reflexivity|]. right.
  split; [exists (u "Working"); vm_compute; reflexivity|].
  split; [vm_compute; reflexivity|].
  split; [vm_compute; reflexivity|].
  split; [vm_compute; reflexivity|].
  intros c. vm_compute. discriminate.
Defined.

(** X11. What a row adds to the output, by its cells: its record, when
    the status is a text other than "Not Working", the city passes the
    filter and the station name is truthy; nothing otherwise. *)
Theorem emitted_iff (city : option text) (r : row) :
  emitted city r
  = if notna (Station.station_status (make_station_data r))
       && negb (is_not_working r)
       && passes_city city (make_station_data r)
       && truthy (Station.fuel_station (make_station_data r))
    then [make_station_data r]
    else [].
Proof. apply emitted_by_cells. Qed.

(** X12. The scan in closed form: the result is the list it started
    from, followed by what the rows add, row by row in file order, up to
    the first row that leaves the loop or raises; that row and all rows
    after it add nothing. *)
Theorem scan_closed_form (city : option text) (df : dataframe)
    (all_stations : list Station.t) :
  (for_rows city df all_stations).1
  = all_stations ++ concat (emitted city <$> rows_run city df)
  ∧ try_block (Ok df) city = concat (emitted city <$> rows_run city df).
Proof. apply for_rows_closed_form. Qed.

(** X13. The output keeps the order of the file and takes each row at
    most once: it is a sublist of the list of the records of the rows, so
    it has at most as many records as the frame has rows. *)
Theorem scan_output_sublist (city : option text) (df : dataframe) :
  try_block (Ok df) city `sublist_of` (make_station_data <$> df)
  ∧ (List.length (try_block (Ok df) city) ≤ List.length df)%nat.
Proof.
  assert (try_block (Ok df) city `sublist_of` (make_station_data <$> df)) as H.
  { rewrite (proj2 (for_rows_closed_form city df [])).
    induction df as [|r df IH]; [done|].
    cbn [rows_run fmap list_fmap].
    destruct (goes_on city r); [|apply sublist_nil_l].
    cbn [fmap list_fmap concat]. rewrite emitted_by_cells.
    destruct (_ && _ && _ && _); cbn [app];
      [by apply sublist_skip | by apply sublist_cons]. }
  split; [done|].
  apply sublist_length in H. by rewrite length_fmap in H.
Qed.

(** X14. A filter city never adds a record: the output of a filtered
    query is a sublist of the output of the unfiltered query on the same
    source. *)
Theorem filter_never_adds (read : result dataframe) (city : option text) :
  try_block read city `sublist_of` try_block read None.
Proof.
  destruct read as [df|e]; [|done].
  rewrite (proj2 (for_rows_closed_form city df [])),
          (proj2 (for_rows_closed_form None df [])).
  induction df as [|r df IH]; [done|]. cbn [rows_run].
  destruct (goes_on city r) eqn:Hon; [|apply sublist_nil_l].
  rewrite (goes_on_without_filter city r Hon).
  cbn [fmap list_fmap concat].
  apply sublist_app; [apply emitted_without_filter | exact IH].
Qed.

(** X15. The empty string as filter city is no filter: the query gives
    what the unfiltered query gives. *)
Theorem empty_filter_is_no_filter (read : result dataframe) :
  try_block read (Some []) = try_block read None.
Proof.
  destruct read as [df|e]; [|done]. unfold try_block. f_equal.
  generalize (@nil Station.t).
  induction (drop_columns df) as [|r rows IH]; intros acc; [done|].
  cbn [for_rows].
  change (loop_body (Some []) r acc) with (loop_body None r acc).
  destruct (loop_body None r acc) as [[[] acc']|e]; auto.
Qed.

(** X16. Every record of the output has a status that is a text and does
    not read "Not Working" in any letter case, and it passes the city
    filter: under a filter city its city is falsy or a text that holds
    the lower-cased filter city. *)
Theorem output_records_pass (read : result dataframe) (city : option text)
    (sd : Station.t) :
  sd ∈ try_block read city →
  (∃ s, Station.station_status sd = VStr s
        ∧ lower s ≠ lower (u "Not Working"))
  ∧ passes_city city sd = true.
Proof.
  intros Hin. destruct read as [df|e]; [|inversion Hin].
  rewrite try_block_ok in Hin.
  apply for_rows_elem_of in Hin as [Hin|(r & _ & -> & He)]; [inversion Hin|].
  rewrite emitted_by_cells in He.
  destruct (station_status_shape r) as [Hst|[s Hst]].
  { rewrite Hst in He. done. }
  unfold is_not_working in He. rewrite Hst in He.
  cbn [py_lower notna isna] in He.
  destruct (text_eqb (lower s) (lower (u "Not Working"))) eqn:Hnw; [done|].
  destruct (passes_city city (make_station_data r)); [|done].
  split; [|done]. exists s. split; [done|]. by apply text_eqb_neq.
Qed.

Lemma output_records_pass_witness :
  (∃ s, Station.station_status (make_station_data station_A) = VStr s
        ∧ lower s ≠ lower (u "Not Working"))
  ∧ passes_city (Some (u "riyadh")) (make_station_data station_A) = true.
Proof.
  apply (output_records_pass (Ok [station_A; station_B; station_C])
           (Some (u "riyadh"))).
  replace (try_block (Ok [station_A; station_B; station_C])
             (Some (u "riyadh")))
    with [make_station_data station_A] by (vm_compute; reflexivity).
  by apply list_elem_of_singleton.
Defined.

(** X17. Under a filter city, a row that the status rule lets through
    and whose city is truthy and not a text (a number read from the
    sheet) ends the scan: the query returns the records of the earlier
    rows only. Without a filter city the iteration of the same row runs to
    its end. *)
Theorem non_text_city_aborts_filtered_scan (city : option text)
    (pre post : dataframe) (r : row) :
  city_given city = true →
  Station.station_status (make_station_data r) ≠ VNone →
  is_not_working r = false →
  truthy (Station.city (make_station_data r)) = true →
  (∀ c, Station.city (make_station_data r) ≠ VStr c) →
  try_block (Ok (pre ++ r :: post)) city = try_block (Ok pre) city
  ∧ goes_on None r = true.
Proof.
  intros Hcity Hst Hnw Ht Hc.
  destruct (station_status_shape r) as [H|Hs]; [done|].
  assert (∀ acc, loop_body city r acc = Raise AttributeError) as Hraise.
  { intros acc. apply loop_body_raise_cases. split; [done|]. right. eauto 10. }
  split.
  - rewrite !try_block_ok. apply for_rows_cut.
    unfold goes_on. by rewrite Hraise.
  - by apply goes_on_iff.
Qed.

Lemma non_text_city_aborts_filtered_scan_witness :
  try_block (Ok [station_A; station_numeric_city; station_A])
    (Some (u "Riyadh"))
  = try_block (Ok [station_A]) (Some (u "Riyadh"))
  ∧ goes_on None station_numeric_city = true.
Proof.
  apply (non_text_city_aborts_filtered_scan (Some (u "Riyadh")) [station_A]
           [station_A] station_numeric_city).
  - vm_compute. reflexivity.
  - vm_compute. discriminate.
  - vm_compute. reflexivity.
  - vm_compute. reflexivity.
  - intros c. vm_compute. discriminate.
Defined.
